(** * A record-keeping page: validation, event bus, state store, controller

    Shallow embedding of the TypeScript sources
    - [validation.ts]       (rule table and [validateField]),
    - [EventListener.ts]    ([EventEmitter]),
    - [StateManager.ts]     ([AppStateManager], with records as values
                             and, in [Objects], as objects),
    - [FormComponent.ts]    ([validateForm], [handleSubmit], the
                             drop-downs),
    - [TableComponent.ts]   (the delete and restore pop-ups),
    - [AppComponent.ts]     (the handlers wired to the event bus),
    followed by the properties proved about them. *)

From Stdlib Require Import ZArith NArith Lia List Ascii String DecimalN.
From stdpp Require Import base list gmap.
Import ListNotations.

Local Open Scope N_scope.

(** ** JavaScript strings

    A JavaScript string is a sequence of UTF-16 code units; [length],
    [trim], [parseInt] and regular expressions without the [u] flag all
    work on code units. *)

Definition jsstring := list N.

(** Literals of the sources, written as Rocq strings. *)
Definition u (s : string) : jsstring :=
  map N_of_ascii (list_ascii_of_string s).

(** WhiteSpace and LineTerminator of ECMAScript: what [trim] strips, what
    [parseInt] skips and what [\s] matches. *)
Definition isWhiteSpace (c : N) : bool :=
  (c =? 9) || (c =? 10) || (c =? 11) || (c =? 12) || (c =? 13) || (c =? 32)
  || (c =? 160) || (c =? 5760) || ((8192 <=? c) && (c <=? 8202))
  || (c =? 8232) || (c =? 8233) || (c =? 8239) || (c =? 8287)
  || (c =? 12288) || (c =? 65279).

Fixpoint trimStart (s : jsstring) : jsstring :=
  match s with
  | c :: s' => if isWhiteSpace c then trimStart s' else s
  | [] => []
  end.

Definition trimEnd (s : jsstring) : jsstring := rev (trimStart (rev s)).

Definition trim (s : jsstring) : jsstring := trimEnd (trimStart s).

(** [s !== ""] *)
Definition nonEmpty (s : jsstring) : bool :=
  match s with [] => false | _ :: _ => true end.

(** [a === b] on strings. *)
Definition streq (a b : jsstring) : bool := bool_decide (a = b).

(** [\d] *)
Definition isDigit (c : N) : bool := (48 <=? c) && (c <=? 57).

(** The first code unit is a decimal digit. *)
Definition startsWithDigit (s : jsstring) : bool :=
  match s with
  | c :: _ => isDigit c
  | [] => false
  end.

(** ** Numbers

    The numbers of these sources are results of [parseInt] compared with
    10 and 100, and [Date.now()]: integers, or NaN.  Signed zero is not
    distinguished. *)

Inductive number := Num (z : Z) | NaN.

(** [10 <= x && x <= 100]; every comparison with NaN is false. *)
Definition between10and100 (x : number) : bool :=
  match x with
  | Num z => ((10 <=? z) && (z <=? 100))%Z
  | NaN => false
  end.

(** Value of a code unit as a digit, for radices up to 36. *)
Definition digitValue (c : N) : option N :=
  if (48 <=? c) && (c <=? 57) then Some (c - 48)
  else if (97 <=? c) && (c <=? 122) then Some (c - 87)
  else if (65 <=? c) && (c <=? 90) then Some (c - 55)
  else None.

Definition radixDigit (R c : N) : option N :=
  match digitValue c with
  | Some d => if d <? R then Some d else None
  | None => None
  end.

(** The longest prefix of radix-[R] digits, as digit values. *)
Fixpoint digitsPrefix (R : N) (s : jsstring) : list N :=
  match s with
  | c :: s' =>
      match radixDigit R c with
      | Some d => d :: digitsPrefix R s'
      | None => []
      end
  | [] => []
  end.

Definition mathInt (R : N) (ds : list N) : N :=
  fold_left (fun acc d => acc * R + d) ds 0.

(** [0x] or [0X] in front. *)
Definition hexPrefixed (s : jsstring) : bool :=
  match s with
  | c :: x :: _ => (c =? 48) && ((x =? 120) || (x =? 88))
  | _ => false
  end.

(** One [+] or [-] in front is dropped. *)
Definition stripSign (s : jsstring) : jsstring :=
  match s with
  | c :: r => if (c =? 43) || (c =? 45) then r else s
  | [] => s
  end.

(** [Number.parseInt(s, radix)], with [radix = 0] for an absent radix:
    skip leading white space, read a sign, settle the radix (an absent
    one is 10, or 16 behind [0x]), read digits up to the first code unit
    that is not one; NaN when there is none.  The digits are read as
    the exact integer; the double the engine rounds a long one to lies
    on the same side of 10 and of 100. *)
Definition parseInt (s : jsstring) (radix : N) : number :=
  let S0 := trimStart s in
  let negative := match S0 with c :: _ => c =? 45 | [] => false end in
  let S1 := stripSign S0 in
  if negb (radix =? 0) && ((radix <? 2) || (36 <? radix)) then NaN
  else
    let stripPrefix := (radix =? 0) || (radix =? 16) in
    let R0 := if radix =? 0 then 10 else radix in
    let hex := stripPrefix && hexPrefixed S1 in
    let S2 := if hex then skipn 2 S1 else S1 in
    let R := if hex then 16 else R0 in
    match digitsPrefix R S2 with
    | [] => NaN
    | ds => let m := Z.of_N (mathInt R ds) in
            Num (if negative then (- m)%Z else m)
    end.

(** [n.toString()] for a non-negative integer: its decimal digits. *)
Fixpoint uintUnits (d : Decimal.uint) : jsstring :=
  match d with
  | Decimal.Nil => []
  | Decimal.D0 d => 48 :: uintUnits d
  | Decimal.D1 d => 49 :: uintUnits d
  | Decimal.D2 d => 50 :: uintUnits d
  | Decimal.D3 d => 51 :: uintUnits d
  | Decimal.D4 d => 52 :: uintUnits d
  | Decimal.D5 d => 53 :: uintUnits d
  | Decimal.D6 d => 54 :: uintUnits d
  | Decimal.D7 d => 55 :: uintUnits d
  | Decimal.D8 d => 56 :: uintUnits d
  | Decimal.D9 d => 57 :: uintUnits d
  end.

Definition toString (n : N) : jsstring := uintUnits (N.to_uint n).

(** ** Regular expressions

    The three patterns of the rule table are anchored at both ends, so
    [test] asks whether the whole string is in the language.  Matching
    is by derivatives. *)

Inductive regex :=
| Fail
| Eps
| Class (p : N -> bool)
| Cat (r1 r2 : regex)
| Alt (r1 r2 : regex)
| Star (r : regex).

Fixpoint nullable (r : regex) : bool :=
  match r with
  | Fail => false
  | Eps => true
  | Class _ => false
  | Cat r1 r2 => nullable r1 && nullable r2
  | Alt r1 r2 => nullable r1 || nullable r2
  | Star _ => true
  end.

Fixpoint deriv (c : N) (r : regex) : regex :=
  match r with
  | Fail => Fail
  | Eps => Fail
  | Class p => if p c then Eps else Fail
  | Cat r1 r2 =>
      if nullable r1 then Alt (Cat (deriv c r1) r2) (deriv c r2)
      else Cat (deriv c r1) r2
  | Alt r1 r2 => Alt (deriv c r1) (deriv c r2)
  | Star r1 => Cat (deriv c r1) (Star r1)
  end.

Fixpoint test (r : regex) (s : jsstring) : bool :=
  match s with
  | [] => nullable r
  | c :: s' => test (deriv c r) s'
  end.

Definition Plus (r : regex) : regex := Cat r (Star r).
Definition Opt (r : regex) : regex := Alt r Eps.
Fixpoint Rep (n : nat) (r : regex) : regex :=
  match n with
  | O => Eps
  | S n' => Cat r (Rep n' r)
  end.
Definition Chr (a : N) : regex := Class (N.eqb a).

(** [[^\s@]] *)
Definition notSpaceAt (c : N) : bool := negb (isWhiteSpace c || (c =? 64)).

(** [/^[^\s@]+@[^\s@]+\.[^\s@]+$/] *)
Definition emailPattern : regex :=
  Cat (Plus (Class notSpaceAt))
    (Cat (Chr 64)
       (Cat (Plus (Class notSpaceAt))
          (Cat (Chr 46) (Plus (Class notSpaceAt))))).

(** [/^\d{10}$/] *)
Definition phonePattern : regex := Rep 10 (Class isDigit).

(** [/^\d{5}(-\d{4})?$/] *)
Definition zipPattern : regex :=
  Cat (Rep 5 (Class isDigit)) (Opt (Cat (Chr 45) (Rep 4 (Class isDigit)))).

(** ** validation.ts *)

(** What the rules of [dob] ask of the runtime's [Date]: the calendar
    year [new Date(value).getFullYear()] of a date string, [None] for an
    Invalid Date, and the year of [new Date()]. *)
Record DateRuntime := {
  fullYearOf : jsstring -> option Z;
  currentYear : Z
}.

Record ValidationRule := {
  logic : jsstring -> bool;
  errorMessage : string
}.

Definition required (msg : string) : ValidationRule :=
  {| logic := fun value => nonEmpty (trim value); errorMessage := msg |}.

(** The rule table; the rules of a field are in the order of the object
    literal, which is the order [Object.entries] yields them in. *)
Definition validationRules (rt : DateRuntime)
  : list (jsstring * list (string * ValidationRule)) :=
  [ (u "name",
      [ ("required", required "Name is required");
        ("minLength",
          {| logic := fun value => (3 <=? N.of_nat (length value))%N;
             errorMessage := "Name must be 3 characters or more" |});
        ("maxLength",
          {| logic := fun value => (N.of_nat (length value) <=? 50)%N;
             errorMessage := "Name must be 50 characters or less" |}) ]);
    (u "email",
      [ ("required", required "Email is required");
        ("format",
          {| logic := fun value => test emailPattern value;
             errorMessage := "Invalid email format" |}) ]);
    (u "phone",
      [ ("required", required "Phone number is required");
        ("format",
          {| logic := fun value => test phonePattern value;
             errorMessage := "Phone number must be exactly 10 digits" |}) ]);
    (u "dob",
      [ ("required", required "Date of birth is required");
        ("validDate",
          {| logic := fun value =>
               match fullYearOf rt value with Some _ => true | None => false end;
             errorMessage := "Invalid date format" |});
        ("ageLimit",
          {| logic := fun value =>
               match fullYearOf rt value with
               | Some y => between10and100 (Num (currentYear rt - y))
               | None => false
               end;
             errorMessage := "You must be between 10 and 100 years old" |}) ]);
    (u "age",
      [ ("required", required "Age is required");
        ("validRange",
          {| logic := fun value => between10and100 (parseInt value 10);
             errorMessage := "Age must be between 10 and 100" |}) ]);
    (u "country", [ ("required", required "Country is required") ]);
    (u "state", [ ("required", required "State is required") ]);
    (u "city", [ ("required", required "City is required") ]);
    (u "zip",
      [ ("required", required "ZIP code is required");
        ("format",
          {| logic := fun value => test zipPattern value;
             errorMessage :=
               "Invalid ZIP code format (e.g., 12345 or 12345-6789)" |}) ])
  ]%string.

(** [validationRules[fieldName]] on the table's own entries.  (A name
    the object inherits, such as [constructor], yields a value without
    entries of its own, on which the loop of [validateField] does not
    run: [null] comes back as for a name that is missing.) *)
Fixpoint rulesOf {A : Type} (table : list (jsstring * A)) (fieldName : jsstring)
  : option A :=
  match table with
  | (k, v) :: rest => if streq k fieldName then Some v else rulesOf rest fieldName
  | [] => None
  end.

(** The [for ... of Object.entries(rules)] loop with its early return.
    Besides the result it yields the names of the rules whose [logic] it
    called, in call order. *)
Fixpoint runRules (rules : list (string * ValidationRule)) (value : jsstring)
  : list string * option string :=
  match rules with
  | [] => ([], None)
  | (ruleName, rule) :: rest =>
      if negb (logic rule value) then ([ruleName], Some (errorMessage rule))
      else let (called, res) := runRules rest value in (ruleName :: called, res)
  end.

(** [validateField] together with the rules it evaluated. *)
Definition validateFieldTraced (rt : DateRuntime) (fieldName : jsstring)
  (value : jsstring) : list string * option string :=
  match rulesOf (validationRules rt) fieldName with
  | None => ([], None)
  | Some rules => runRules rules value
  end.

(** [validateField(fieldName, value)]: [None] is [null]. *)
Definition validateField (rt : DateRuntime) (fieldName : jsstring)
  (value : jsstring) : option string :=
  snd (validateFieldTraced rt fieldName value).


(** ** The page's world and its computations

    Everything the modelled classes read and write: the two entries of
    [localStorage], the clock, the fields of the [AppStateManager]
    singleton, of [AppComponent] and of the current [FormComponent].

    Records are values.  The one write through a reference, the time
    stamp [deleteData] sets on the pending record, reaches an object that
    has left the active list by then: [handleDeleteData] filters it out
    and [updateData] replaces it (its id, when not empty, is the id of the
    submitted record).  A caller of the store that keeps the pending
    record in the list it passes is the business of [Objects] below,
    where records are objects. *)

Record FormData := {
  id : jsstring;
  name : jsstring;
  phone : jsstring;
  email : jsstring;
  dob : jsstring;
  age : number;
  country : jsstring;
  state : jsstring;
  city : jsstring;
  zip : jsstring;
  restoreData : list jsstring;   (* [any[]]; the sources only ever store [[]] *)
  timeStamp : jsstring
}.

(** [item.timeStamp = t] *)
Definition withTimeStamp (t : jsstring) (r : FormData) : FormData :=
  {| id := id r; name := name r; phone := phone r; email := email r;
     dob := dob r; age := age r; country := country r; state := state r;
     city := city r; zip := zip r; restoreData := restoreData r;
     timeStamp := t |}.

(** What ends up under the key [appStateDeletedData]: records, and
    arrays pushed as one element. *)
#[warnings="-register-all"]
Inductive json :=
| JRecord (r : FormData)
| JArray (l : list json).

(** A field of type [any], with what the page assigns to it: [null],
    the [undefined] of a failed [find], a record, an array. *)
Inductive any :=
| null
| undefined
| value (v : json).

(** [if (x)]: objects and arrays, the empty array too, are truthy. *)
Definition truthy (x : any) : bool :=
  match x with
  | value _ => true
  | _ => false
  end.

(** [find] yields [undefined] when nothing matches. *)
Definition found (o : option FormData) : any :=
  match o with
  | Some r => value (JRecord r)
  | None => undefined
  end.

(** [FormComponent]: the two fields [render] sets. *)
Record FormComponent := {
  isEditMode : bool;
  editId : option jsstring
}.

Record World := mkWorld {
  (* localStorage; [None] is a missing key.  [JSON.stringify] followed by
     [JSON.parse] is the identity on what the page stores: a record gets
     there only after [validateForm] accepted its age, which is then a
     number and not NaN. *)
  appStateData : option (list FormData);
  appStateDeletedData : option (list json);
  (* the runtime's Date *)
  dates : DateRuntime;
  nowMs : N;                       (* [Date.now()] *)
  nowISO : jsstring;               (* [new Date().toISOString()] *)
  (* AppStateManager *)
  data : list FormData;
  deletedData : any;
  (* AppComponent *)
  dataToBeRestore : any;
  formComponent : FormComponent
}.

Definition set_appStateData (v : option (list FormData)) (w : World) : World :=
  mkWorld v (appStateDeletedData w) (dates w) (nowMs w) (nowISO w) (data w)
    (deletedData w) (dataToBeRestore w) (formComponent w).

Definition set_appStateDeletedData (v : option (list json)) (w : World) : World :=
  mkWorld (appStateData w) v (dates w) (nowMs w) (nowISO w) (data w)
    (deletedData w) (dataToBeRestore w) (formComponent w).

Definition set_data (v : list FormData) (w : World) : World :=
  mkWorld (appStateData w) (appStateDeletedData w) (dates w) (nowMs w)
    (nowISO w) v (deletedData w) (dataToBeRestore w) (formComponent w).

Definition set_deletedData (v : any) (w : World) : World :=
  mkWorld (appStateData w) (appStateDeletedData w) (dates w) (nowMs w)
    (nowISO w) (data w) v (dataToBeRestore w) (formComponent w).

Definition set_dataToBeRestore (v : any) (w : World) : World :=
  mkWorld (appStateData w) (appStateDeletedData w) (dates w) (nowMs w)
    (nowISO w) (data w) (deletedData w) v (formComponent w).

Definition set_formComponent (v : FormComponent) (w : World) : World :=
  mkWorld (appStateData w) (appStateDeletedData w) (dates w) (nowMs w)
    (nowISO w) (data w) (deletedData w) (dataToBeRestore w) v.

(** The clock moves between two user actions. *)
Definition tick (ms : N) (iso : jsstring) (w : World) : World :=
  mkWorld (appStateData w) (appStateDeletedData w) (dates w) ms iso (data w)
    (deletedData w) (dataToBeRestore w) (formComponent w).

(** A method either returns, with a value and the world it leaves, or
    throws (a [TypeError] is the only exception these methods can run
    into). *)
Inductive outcome (W A : Type) :=
| Returns (a : A) (w : W)
| Throws.
Arguments Returns {W A} a w.
Arguments Throws {W A}.

Definition M (W A : Type) : Type := W -> outcome W A.

Definition ret {W A} (a : A) : M W A := fun w => Returns a w.

Definition bind {W A B} (c : M W A) (k : A -> M W B) : M W B :=
  fun w => match c w with
           | Returns a w' => k a w'
           | Throws => Throws
           end.

Definition gets {W A} (f : W -> A) : M W A := fun w => Returns (f w) w.
Definition modify {W} (f : W -> W) : M W unit := fun w => Returns tt (f w).
Definition throw {W A} : M W A := fun _ => Throws.

Declare Scope js_scope.
Delimit Scope js_scope with js.
Notation "'let*' x ':=' c 'in' k" := (bind c (fun x => k))
  (at level 10, x name, c at level 100, k at level 200) : js_scope.
Notation "c ';;' k" := (bind c (fun _ => k))
  (at level 100, k at level 200, right associativity) : js_scope.

Local Open Scope js_scope.

(** ** StateManager.ts *)

Definition JS := M World.

(** A stored string is never empty, so [if (savedData)] asks whether the
    key is there.  Reading the storage cannot throw here. *)
Definition loadData (w : World) : World :=
  let w1 := match appStateData w with
            | Some savedData => set_data savedData w
            | None => w
            end in
  match appStateDeletedData w1 with
  | Some savedDeletedData => set_deletedData (value (JArray savedDeletedData)) w1
  | None => w1
  end.

(** [new AppStateManager()], which [getInstance] runs once per page
    load: the field initialisers, then [loadData]. *)
Definition newAppStateManager (w : World) : World :=
  loadData (set_deletedData null (set_data [] w)).

(** [this.deletedData.timeStamp = t].  On a record it sets the field; on
    an array it adds a named property, which [JSON.stringify] leaves
    out; on [null] and [undefined] it is a TypeError. *)
Definition stamped (t : jsstring) (v : json) : json :=
  match v with
  | JRecord r => JRecord (withTimeStamp t r)
  | JArray l => JArray l
  end.

Definition stamp (t : jsstring) (x : any) : JS json :=
  match x with
  | value v => ret (stamped t v)
  | null | undefined => throw
  end.

Definition deleteData : JS unit :=
  let* stored := gets appStateDeletedData in
  let getDeletedData := default [] stored in
  let* pending := gets deletedData in
  let* t := gets nowISO in
  let* entry := stamp t pending in
  modify (set_deletedData (value entry));;
  modify (set_appStateDeletedData (Some (getDeletedData ++ [entry])));;
  modify (set_deletedData null).

Definition saveData : JS unit :=
  let* d := gets data in
  modify (set_appStateData (Some d));;
  let* pending := gets deletedData in
  if truthy pending then deleteData else ret tt.

Definition getData : JS (list FormData) := gets data.

Definition setData (newData : list FormData) : JS unit :=
  modify (set_data newData);;
  saveData.

Definition getDeletedData : JS (list json) :=
  let* stored := gets appStateDeletedData in
  ret (default [] stored).

(** Declared on [FormData[]]; [confirmDelete] passes what
    [getDeletedData] gave it, whatever that holds. *)
Definition setDeletedData (newDeletedData : list json) : JS unit :=
  modify (set_deletedData (value (JArray newDeletedData)));;
  saveData.

(** ** EventListener.ts

    [listeners] starts as [{}], an object whose prototype is
    [Object.prototype]: [this.listeners[eventName]] yields the object's
    own property of that name and, when it has none, what
    [Object.prototype] holds under that name.  The own properties are a
    finite map from the event name to the callbacks in registration
    order.  A callback is a computation on the world it closes over. *)

(** The property names of [Object.prototype].  Each holds a function,
    but for [__proto__], whose getter yields [Object.prototype] itself:
    every one of these values is truthy, and none has a [push], a
    [forEach] or a [filter]. *)
Definition inheritedNames : list jsstring :=
  map u [ "constructor"; "hasOwnProperty"; "isPrototypeOf";
          "propertyIsEnumerable"; "toLocaleString"; "toString"; "valueOf";
          "__proto__"; "__defineGetter__"; "__defineSetter__";
          "__lookupGetter__"; "__lookupSetter__" ]%string.

Definition inherited (eventName : jsstring) : bool :=
  existsb (streq eventName) inheritedNames.

Section EventEmitter.
Context {W Arg : Type}.

Definition Callback : Type := list Arg -> M W unit.

(** [on] returns the listeners it leaves, or [None] for the TypeError of
    [this.listeners[eventName].push] on an inherited value: that value is
    truthy, so the test before it does not put an array in its place. *)
Definition on (eventName : jsstring) (callback : Callback)
  (listeners : gmap jsstring (list Callback))
  : option (gmap jsstring (list Callback)) :=
  match listeners !! eventName with
  | Some eventListeners =>
      Some (<[eventName := eventListeners ++ [callback]]> listeners)
  | None =>
      if inherited eventName then None
      else Some (<[eventName := [callback]]> listeners)
  end.

(** [eventListeners.forEach((callback) => callback(...args))] *)
Fixpoint forEach (callbacks : list Callback) (args : list Arg) : M W unit :=
  match callbacks with
  | [] => ret tt
  | callback :: rest => (callback args;; forEach rest args)%js
  end.

(** An inherited value passes [if (eventListeners)] and has no
    [forEach]: a TypeError. *)
Definition emit (listeners : gmap jsstring (list Callback))
  (eventName : jsstring) (args : list Arg) : M W unit :=
  match listeners !! eventName with
  | Some eventListeners => forEach eventListeners args
  | None => if inherited eventName then throw else ret tt
  end.

(** A series of [on] calls on a new emitter; the first that throws ends
    it. *)
Definition registering (calls : list (jsstring * Callback))
  : option (gmap jsstring (list Callback)) :=
  fold_left (fun acc c => match acc with
                          | Some listeners => on (fst c) (snd c) listeners
                          | None => None
                          end) calls (Some ∅).
End EventEmitter.

(** ** AppComponent.ts: the handlers *)

(** [toLowerCase] on the code units [A]-[Z]; the others are kept.  No
    code unit outside [A]-[Z] lower-cases to a letter of [delete], so the
    two comparisons with ["delete"] below decide as in the sources. *)
Definition toLowerCase (s : jsstring) : jsstring :=
  map (fun c => if (65 <=? c) && (c <=? 90) then c + 32 else c)%N s.

(** [FormComponent.render(editData?)], as far as the two fields go. *)
Definition render (editData : option FormData) : FormComponent :=
  {| isEditMode := match editData with Some _ => true | None => false end;
     editId := match editData with
               | Some d => if nonEmpty (id d) then Some (id d) else None
               | None => None
               end |}.

(** [initializeComponents]: a new form, rendered empty, and a new table
    rendered from [getData()]. *)
Definition initializeComponents : JS unit :=
  modify (set_formComponent (render None));;
  let* _ := getData in
  ret tt.

(** The handlers end by rendering the table from [getData()] and by
    showing a notification; neither writes a field of the world. *)
Definition addData (d : FormData) : JS unit :=
  let* currentData := getData in
  setData (d :: currentData).

Definition editItem (i : jsstring) : JS unit :=
  let* currentData := getData in
  match find (fun item => streq (id item) i) currentData with
  | Some itemToEdit =>
      modify (set_dataToBeRestore (value (JRecord itemToEdit)));;
      modify (set_formComponent (render (Some itemToEdit)))
  | None => ret tt
  end.

Definition updateData (d : FormData) : JS unit :=
  let* currentData := getData in
  let updatedData :=
    map (fun item => if streq (id item) (id d) then d else item) currentData in
  let* prior := gets dataToBeRestore in
  modify (set_deletedData prior);;
  setData updatedData;;
  modify (set_formComponent (render None));;
  modify (set_dataToBeRestore null).

Definition handleDeleteData (i : jsstring) : JS unit :=
  let* currentData := getData in
  let foundItem := find (fun item => streq (id item) i) currentData in
  modify (set_deletedData (found foundItem));;
  let updatedData := filter (fun item => id item ≠ i) currentData in
  setData updatedData;;
  initializeComponents.

Definition handleRestoreDeleteData (i : jsstring) : JS unit :=
  let* currentData := getData in
  modify (set_deletedData null);;
  let updatedData := filter (fun item => id item ≠ i) currentData in
  setData updatedData;;
  initializeComponents.

(** What the page's [emit] calls pass along. *)
Inductive Arg :=
| ArgData (d : FormData)
| ArgId (i : jsstring).

(** [(data: FormData) => h(data)] and [(id: string) => h(id)].  Every
    [emit] of the page passes the declared payload; the model does
    nothing on another one. *)
Definition onData (h : FormData -> JS unit) : @Callback World Arg :=
  fun args => match args with
              | ArgData d :: _ => h d
              | _ => ret tt
              end.

Definition onId (h : jsstring -> JS unit) : @Callback World Arg :=
  fun args => match args with
              | ArgId i :: _ => h i
              | _ => ret tt
              end.

(** [showDeleteConfirmation] and [showRestoreModal] only show a modal. *)
Definition showsModal : @Callback World Arg := fun _ => ret tt.

(** The seven [on] calls of [addEventListeners], in the order of the
    source. *)
Definition subscriptions : list (jsstring * @Callback World Arg) :=
  [ (u "formSubmit", onData addData);
    (u "editItem", onId editItem);
    (u "updateFormData", onData updateData);
    (u "showDeleteConfirmation", showsModal);
    (u "showRestoreModal", showsModal);
    (u "deleteData", onId handleDeleteData);
    (u "restoreDeleteData", onId handleRestoreDeleteData) ].

(** [addEventListeners] on the new [EventEmitter]: the listeners the
    seven calls leave.  None of the seven names is inherited, so none of
    the calls throws ([addEventListeners_returns] below). *)
Definition addEventListeners : gmap jsstring (list (@Callback World Arg)) :=
  default ∅ (registering subscriptions).

(** The click on the modal's confirm button; [typed] is the value of
    [deleteConfirmInput], [attr] the modal's [data-id] attribute. *)
Definition confirmDelete (typed : jsstring) (attr : option jsstring) : JS unit :=
  match attr with
  | Some i =>
      if streq (toLowerCase typed) (u "delete") && nonEmpty i then
        let* currentData := getData in
        match find (fun item => streq (id item) i) currentData with
        | Some itemToDelete =>
            let updatedData := filter (fun item => id item ≠ i) currentData in
            setData updatedData;;
            let* currentDeletedData := getDeletedData in
            setDeletedData (JRecord itemToDelete :: take 2 currentDeletedData);;
            emit addEventListeners (u "deleteData") [ArgId i]
        | None => ret tt
        end
      else ret tt
  | None => ret tt
  end.

(** ** TableComponent.ts: the two pop-ups *)

(** The confirm button of the delete pop-up opened on the row of [i]. *)
Definition confirmDeleteButton (typed : jsstring) (i : jsstring) : JS unit :=
  if streq (toLowerCase (trim typed)) (u "delete") then
    emit addEventListeners (u "deleteData") [ArgId i]
  else ret tt.

(** [restoreData.filter((filterdata) => filterdata.id == id)]: an array
    has no [id]. *)
Definition withId (i : jsstring) (entries : list json) : list FormData :=
  omap (fun e => match e with
                 | JRecord r => if streq (id r) i then Some r else None
                 | JArray _ => None
                 end) entries.

Definition handleRestore (rowData : option FormData) : JS unit :=
  match rowData with
  | Some row =>
      emit addEventListeners (u "restoreDeleteData") [ArgId (id row)];;
      emit addEventListeners (u "formSubmit") [ArgData row]
  | None => throw
  end.

(** The pop-up is built by assigning a template literal to [innerHTML],
    with the fields of each entry written into it as they are.  Text
    between two tags leaves the elements around it alone when it has no
    [<]; a value between double quotes is what [getAttribute] gives back
    when it has no double quote, no [&], no NUL and no carriage return. *)
Definition plainText (s : jsstring) : bool :=
  forallb (fun c => negb (c =? 60)) s.

Definition plainAttribute (s : jsstring) : bool :=
  forallb (fun c => negb ((c =? 34) || (c =? 38) || (c =? 0) || (c =? 13))) s.

Definition plainEntry (item : FormData) : bool :=
  plainText (name item) && plainText (phone item) && plainText (email item)
  && plainText (timeStamp item) && plainAttribute (id item).

(** [popup.querySelectorAll(".restore-action-button")], each button with
    what [getAttribute("data-id")] gives for it ([None] is [null]): one
    button per entry, carrying the entry's id, when every entry is plain.
    What the browser's parser makes of other markup is the parameter
    [parsed]. *)
Definition restoreButtons (parsed : list FormData -> list (option jsstring))
  (restoreData : list FormData) : list (option jsstring) :=
  if forallb plainEntry restoreData
  then map (fun item => Some (id item)) restoreData
  else parsed restoreData.

(** [openRestorePopup(i)] followed by a click on its [k]-th restore
    button, if there is one: the pop-up lists the stored entries with id
    [i], and the click looks its button's [data-id] up in that list;
    [handleRestore] throws on the [undefined] of a failed look-up. *)
Definition restoreClick (parsed : list FormData -> list (option jsstring))
  (i : jsstring) (k : nat) : JS unit :=
  let* stored := gets appStateDeletedData in
  let restoreData := withId i (default [] stored) in
  match restoreButtons parsed restoreData !! k with
  | Some attr =>
      handleRestore
        match attr with
        | Some dataId => find (fun item => streq (id item) dataId) restoreData
        | None => None
        end
  | None => ret tt
  end.

(** ** FormComponent.ts: submission *)

Definition fieldNames : list jsstring :=
  map u ["name"; "phone"; "email"; "dob"; "age"; "country"; "state"; "city"; "zip"]%string.

(** [if (errorMessage)]: a message is recorded in [errors] when it is
    neither [null] nor empty. *)
Definition recorded (errMsg : option string) : bool :=
  match errMsg with
  | Some m => negb (String.eqb m "")
  | None => false
  end.

(** [validateForm]; [form] gives the value of each field. *)
Definition validateForm (rt : DateRuntime) (form : jsstring -> jsstring) : bool :=
  forallb (fun fieldName => negb (recorded (validateField rt fieldName (form fieldName))))
    fieldNames.

(** The record [handleSubmit] builds. *)
Definition submitted (w : World) (form : jsstring -> jsstring) : FormData :=
  {| id := match editId (formComponent w) with
           | Some i => if nonEmpty i then i else toString (nowMs w)
           | None => toString (nowMs w)
           end;
     name := form (u "name");
     phone := form (u "phone");
     email := form (u "email");
     dob := form (u "dob");
     age := parseInt (form (u "age")) 0;
     country := form (u "country");
     state := form (u "state");
     city := form (u "city");
     zip := form (u "zip");
     restoreData := [];
     timeStamp := nowISO w |}.

Definition handleSubmit (form : jsstring -> jsstring) : JS unit :=
  let* rt := gets dates in
  if validateForm rt form then
    let* d := gets (fun w => submitted w form) in
    let* fc := gets formComponent in
    (if isEditMode fc
     then emit addEventListeners (u "updateFormData") [ArgData d]
     else emit addEventListeners (u "formSubmit") [ArgData d]);;
    modify (set_formComponent (render None))
  else ret tt.

(** ** Sample data for the examples *)

(** A runtime that reads dates of the form [YYYY-MM-DD], as a date input
    delivers them, in the year 2024. *)
Definition isoDates : DateRuntime :=
  {| fullYearOf := fun s =>
       if test (Cat (Rep 4 (Class isDigit))
                  (Cat (Chr 45) (Cat (Rep 2 (Class isDigit))
                     (Cat (Chr 45) (Rep 2 (Class isDigit)))))) s
       then Some (Z.of_N (mathInt 10 (digitsPrefix 10 s)))
       else None;
     currentYear := 2024 |}.

(** A form filled in with the scenario of the specification. *)
Definition sampleForm (fieldName : jsstring) : jsstring :=
  if streq fieldName (u "name") then u "Ana"
  else if streq fieldName (u "phone") then u "5551234567"
  else if streq fieldName (u "email") then u "ana@x.com"
  else if streq fieldName (u "dob") then u "2000-01-01"
  else if streq fieldName (u "age") then u "24"
  else if streq fieldName (u "country") then u "USA"
  else if streq fieldName (u "state") then u "California"
  else if streq fieldName (u "city") then u "Los Angeles"
  else if streq fieldName (u "zip") then u "90001"
  else [].

(** A stored record with the given id and name. *)
Definition person (i n : string) : FormData :=
  {| id := u i; name := u n; phone := u "5551234567"; email := u "ana@x.com";
     dob := u "2000-01-01"; age := Num 24; country := u "USA";
     state := u "California"; city := u "Los Angeles"; zip := u "90001";
     restoreData := []; timeStamp := u "2024-01-01T00:00:00.000Z" |}.

(** The page as the constructors leave it over the given storage. *)
Definition pageOver (active : option (list FormData)) (deleted : option (list json))
  : World :=
  newAppStateManager
    {| appStateData := active; appStateDeletedData := deleted;
       dates := isoDates; nowMs := 1700000000000;
       nowISO := u "2023-11-14T22:13:20.000Z";
       data := []; deletedData := null; dataToBeRestore := undefined;
       formComponent := render None |}.

(** ** Using the store

    What the rest of the page can do to the [AppStateManager]: call one of
    its four public methods, or write its public field [deletedData], as
    [AppComponent] does; the clock moves in between. *)

Inductive StoreCall :=
| CallGetData
| CallSetData (newData : list FormData)
| CallGetDeletedData
| CallSetDeletedData (newDeletedData : list json)
| AssignDeletedData (v : any)
| ClockMoves (ms : N) (iso : jsstring).

Definition call (c : StoreCall) : JS unit :=
  match c with
  | CallGetData => let* _ := getData in ret tt
  | CallSetData newData => setData newData
  | CallGetDeletedData => let* _ := getDeletedData in ret tt
  | CallSetDeletedData newDeletedData => setDeletedData newDeletedData
  | AssignDeletedData v => modify (set_deletedData v)
  | ClockMoves ms iso => modify (tick ms iso)
  end.

Fixpoint calls (cs : list StoreCall) : JS unit :=
  match cs with
  | [] => ret tt
  | c :: rest => call c;; calls rest
  end.

(** ** AppComponent.ts: the restore modal *)

(** [getDeletedData().slice(0, 3)] *)
Definition getLastThreeSubmissions : JS (list json) :=
  let* deleted := getDeletedData in
  ret (take 3 deleted).

(** What [showRestoreModal] writes into [restoreOptions]: the template
    literal of each item is empty, and [join("")] puts the pieces side by
    side. *)
Definition restoreOptionsMarkup (lastThreeSubmissions : list json) : jsstring :=
  concat (map (fun _item : json => @nil N) lastThreeSubmissions).

Definition showRestoreModal : JS jsstring :=
  let* lastThreeSubmissions := getLastThreeSubmissions in
  ret (restoreOptionsMarkup lastThreeSubmissions).

(** ** EventListener.ts: [remove]

    [listener !== callback] compares two function objects by reference.
    The functions of this embedding have no identity of their own, so the
    comparison is a parameter: [same f g] says that [f] and [g] are one
    and the same object.  As in [on], [None] is the TypeError of an
    inherited value, which has no [filter]. *)

Section EventEmitterRemove.
Context {W Arg : Type}.
Variable same : @Callback W Arg -> @Callback W Arg -> bool.

Definition remove (eventName : jsstring) (callback : @Callback W Arg)
  (listeners : gmap jsstring (list (@Callback W Arg)))
  : option (gmap jsstring (list (@Callback W Arg))) :=
  match listeners !! eventName with
  | Some eventListeners =>
      Some (<[eventName := filter (fun listener => same listener callback = false)
                             eventListeners]> listeners)
  | None => if inherited eventName then None else Some listeners
  end.
End EventEmitterRemove.

(** ** FormComponent.ts: the fields on the page

    The form as the methods of [FormComponent] see it: the value of each
    of the nine fields, the options the state and city drop-downs offer,
    and the [errors] object. *)

Record Country := { countryName : jsstring; states : list (jsstring * list jsstring) }.

(** [getCountries()]; a state is its name with its cities. *)
Definition getCountries : list Country :=
  [ {| countryName := u "INDIA";
       states := [ (u "Uttar Pradesh", [u "Prayagraj"; u "Ayodhya"]);
                   (u "Odisha", [u "Puri"; u "Bhubaneswar"]) ] |};
    {| countryName := u "USA";
       states := [ (u "California", [u "Los Angeles"; u "San Francisco"]);
                   (u "New York", [u "New York City"; u "Buffalo"]) ] |};
    {| countryName := u "Canada";
       states := [ (u "Ontario", [u "Toronto"; u "Ottawa"]);
                   (u "Quebec", [u "Montreal"; u "Quebec City"]) ] |} ].

Module FormView.

Record t := mk {
  values : jsstring -> jsstring;
  countryOptions : list jsstring;
  stateOptions : list jsstring;
  cityOptions : list jsstring;
  errors : gmap jsstring string
}.

(** [field.value = v] on an input; on a select see [selectValue]. *)
Definition set_value (f v : jsstring) (fv : t) : t :=
  mk (fun g => if streq g f then v else values fv g)
     (countryOptions fv) (stateOptions fv) (cityOptions fv) (errors fv).

Definition set_stateOptions (o : list jsstring) (fv : t) : t :=
  mk (values fv) (countryOptions fv) o (cityOptions fv) (errors fv).

Definition set_cityOptions (o : list jsstring) (fv : t) : t :=
  mk (values fv) (countryOptions fv) (stateOptions fv) o (errors fv).

Definition set_errors (e : gmap jsstring string) (fv : t) : t :=
  mk (values fv) (countryOptions fv) (stateOptions fv) (cityOptions fv) e.

(** [select.value = v]: the first option with that value gets selected;
    when there is none, no option is selected and the value reads as the
    empty string. *)
Definition selectValue (options : list jsstring) (v : jsstring) : jsstring :=
  if bool_decide (v ∈ options) then v else [].

(** The nine elements [querySelector] finds by id. *)
Definition hasField (fieldName : jsstring) : bool :=
  bool_decide (fieldName ∈ fieldNames).

(** The method [validateField(fieldName)] of the form: it validates the
    field's current value and records the message in [errors], or
    deletes the field's entry.  On a name without an element,
    [field.value] is a TypeError. *)
Definition validateField (rt : DateRuntime) (fieldName : jsstring) : M t unit :=
  if hasField fieldName then
    let* v := gets (fun fv => values fv fieldName) in
    let errMsg := validateField rt fieldName v in
    let* e := gets errors in
    match errMsg with
    | Some m =>
        if recorded errMsg then modify (set_errors (<[fieldName := m]> e))
        else modify (set_errors (delete fieldName e))
    | None => modify (set_errors (delete fieldName e))
    end
  else throw.

(** The loop of [validateForm] over the field names, with its flag. *)
Fixpoint validateEach (rt : DateRuntime) (names : list jsstring) (isValid : bool)
  : M t bool :=
  match names with
  | [] => ret isValid
  | fieldName :: rest =>
      validateField rt fieldName;;
      let* e := gets errors in
      let isValid' :=
        match e !! fieldName with
        | Some m => if negb (String.eqb m "") then false else isValid
        | None => isValid
        end in
      validateEach rt rest isValid'
  end.

Definition validateForm (rt : DateRuntime) : M t bool :=
  validateEach rt fieldNames true.

(** Setting [innerHTML] to the placeholder option and appending one
    option per name: the placeholder, the first option, is the selected
    one. *)
Definition updateStateDropdown (sts : list (jsstring * list jsstring)) : M t unit :=
  modify (set_stateOptions ([] :: map fst sts));;
  modify (set_value (u "state") []).

Definition updateCityDropdown (cities : list jsstring) : M t unit :=
  modify (set_cityOptions ([] :: cities));;
  modify (set_value (u "city") []).

Definition findCountry (n : jsstring) : option Country :=
  find (fun country => streq (countryName country) n) getCountries.

Definition findState (country : Country) (n : jsstring)
  : option (jsstring * list jsstring) :=
  find (fun st => streq (fst st) n) (states country).

Definition handleCountryChange (rt : DateRuntime) : M t unit :=
  let* c := gets (fun fv => values fv (u "country")) in
  match findCountry c with
  | Some selectedCountry =>
      updateStateDropdown (states selectedCountry);;
      modify (set_cityOptions [[]]);;
      modify (set_value (u "city") [])
  | None => ret tt
  end;;
  validateField rt (u "country").

Definition handleStateChange (rt : DateRuntime) : M t unit :=
  let* c := gets (fun fv => values fv (u "country")) in
  let* s := gets (fun fv => values fv (u "state")) in
  match findCountry c with
  | Some selectedCountry =>
      match findState selectedCountry s with
      | Some selectedState => updateCityDropdown (snd selectedState)
      | None => ret tt
      end
  | None => ret tt
  end;;
  validateField rt (u "state").

Definition populateDropdowns (d : FormData) : M t unit :=
  let* co := gets countryOptions in
  modify (set_value (u "country") (selectValue co (country d)));;
  match findCountry (country d) with
  | Some selectedCountry =>
      updateStateDropdown (states selectedCountry);;
      let* so := gets stateOptions in
      modify (set_value (u "state") (selectValue so (state d)));;
      match findState selectedCountry (state d) with
      | Some selectedState =>
          updateCityDropdown (snd selectedState);;
          let* cio := gets cityOptions in
          modify (set_value (u "city") (selectValue cio (city d)))
      | None => ret tt
      end
  | None => ret tt
  end.

End FormView.

(** ** FormComponent.ts: [handleSubmit] on the page

    [handleSubmit] once more, now with the form it reads and writes next
    to the world: [validateForm] goes through the [errors] object, the
    record is read off the fields, and the final [render()] puts an empty
    form on the page.  [render] does not touch [errors]. *)

Definition Page : Type := (FormView.t * World)%type.

Definition onForm {A : Type} (c : M FormView.t A) : M Page A :=
  fun p => match c (fst p) with
           | Returns a fv => Returns a (fv, snd p)
           | Throws => Throws
           end.

Definition onWorld {A : Type} (c : JS A) : M Page A :=
  fun p => match c (snd p) with
           | Returns a w => Returns a (fst p, w)
           | Throws => Throws
           end.

(** The form [render()] writes when it gets no record: empty inputs, the
    three countries behind the placeholder, and the placeholder alone
    for the state and for the city. *)
Definition renderedEmpty (fv : FormView.t) : FormView.t :=
  FormView.mk (fun _ => []) ([] :: map countryName getCountries) [[]] [[]]
    (FormView.errors fv).

Definition handleSubmitEvent : M Page unit :=
  let* rt := gets (fun p : Page => dates (snd p)) in
  let* isValid := onForm (FormView.validateForm rt) in
  if isValid : bool then
    let* d := gets (fun p : Page => submitted (snd p) (FormView.values (fst p))) in
    let* fc := gets (fun p : Page => formComponent (snd p)) in
    onWorld (if isEditMode fc
             then emit addEventListeners (u "updateFormData") [ArgData d]
             else emit addEventListeners (u "formSubmit") [ArgData d]);;
    onWorld (modify (set_formComponent (render None)));;
    onForm (modify renderedEmpty)
  else ret tt.

(** ** StateManager.ts, with the records as objects

    The store above keeps its records as values.  A JavaScript array
    holds references: [setData(x)] keeps the very objects of [x], and
    [this.deletedData.timeStamp = t] writes into the object the field
    points to, wherever else that object is referenced.  This second
    reading of the class keeps track of it: the record objects live in a
    heap, the fields hold references, and the storage holds text, given
    here as the JSON value the text denotes. *)

Module Objects.

#[warnings="-register-all"]
Inductive JSON :=
| JNull
| JNumber (z : Z)
| JString (s : jsstring)
| JList (l : list JSON)
| JObject (members : list (string * JSON)).

(** [JSON.stringify] of a record object: its properties in the order in
    which [handleSubmit] creates them; an age that is NaN is written as
    [null]. *)
Definition jsonOfRecord (r : FormData) : JSON :=
  JObject [ ("id", JString (id r));
            ("name", JString (name r));
            ("phone", JString (phone r));
            ("email", JString (email r));
            ("dob", JString (dob r));
            ("age", match age r with Num z => JNumber z | NaN => JNull end);
            ("country", JString (country r));
            ("state", JString (state r));
            ("city", JString (city r));
            ("zip", JString (zip r));
            ("restoreData", JList (map JString (restoreData r)));
            ("timeStamp", JString (timeStamp r)) ]%string.

(** The address of a record object. *)
Definition ref : Type := nat.

(** What a variable of the class refers to: a record object, or an array
    of such.  No method changes the elements of an array it was given, so
    an array is the list of its elements. *)
#[warnings="-register-all"]
Inductive target :=
| Rec (a : ref)
| Arr (elements : list target).

(** The field [deletedData], with what the page assigns to it: [null],
    the [undefined] of a failed [find], a record object, an array. *)
Inductive pointer :=
| null
| undefined
| object (x : target).

Record Store := mkStore {
  heap : ref -> FormData;                     (* the record objects *)
  data : list ref;                            (* [this.data] *)
  deletedData : pointer;
  appStateData : option JSON;                 (* localStorage *)
  appStateDeletedData : option (list JSON);   (* localStorage: an array *)
  nowISO : jsstring                           (* [new Date().toISOString()] *)
}.

Definition set_heap (v : ref -> FormData) (s : Store) : Store :=
  mkStore v (data s) (deletedData s) (appStateData s) (appStateDeletedData s)
    (nowISO s).

Definition set_data (v : list ref) (s : Store) : Store :=
  mkStore (heap s) v (deletedData s) (appStateData s) (appStateDeletedData s)
    (nowISO s).

Definition set_deletedData (v : pointer) (s : Store) : Store :=
  mkStore (heap s) (data s) v (appStateData s) (appStateDeletedData s) (nowISO s).

Definition set_appStateData (v : option JSON) (s : Store) : Store :=
  mkStore (heap s) (data s) (deletedData s) v (appStateDeletedData s) (nowISO s).

Definition set_appStateDeletedData (v : option (list JSON)) (s : Store) : Store :=
  mkStore (heap s) (data s) (deletedData s) (appStateData s) v (nowISO s).

(** [JSON.stringify] follows the references at the time of the call. *)
Fixpoint stringify (h : ref -> FormData) (x : target) : JSON :=
  match x with
  | Rec a => jsonOfRecord (h a)
  | Arr elements => JList (map (stringify h) elements)
  end.

(** [o.timeStamp = t] on the record object at [a]. *)
Definition writeTimeStamp (a : ref) (t : jsstring) (h : ref -> FormData)
  : ref -> FormData :=
  fun b => if Nat.eqb a b then withTimeStamp t (h b) else h b.

(** On an array the assignment adds a named property, which no element
    and no [JSON.stringify] shows. *)
Definition deleteData : M Store unit :=
  let* stored := gets appStateDeletedData in
  let* pending := gets deletedData in
  let* t := gets nowISO in
  match pending with
  | object x =>
      match x with
      | Rec a => modify (fun s => set_heap (writeTimeStamp a t (heap s)) s)
      | Arr _ => ret tt
      end;;
      let getDeletedData := default [] stored in
      let* h := gets heap in
      modify (set_appStateDeletedData (Some (getDeletedData ++ [stringify h x])));;
      modify (set_deletedData null)
  | null | undefined => throw
  end.

Definition saveData : M Store unit :=
  let* h := gets heap in
  let* d := gets data in
  modify (set_appStateData (Some (JList (map (fun a => jsonOfRecord (h a)) d))));;
  let* pending := gets deletedData in
  match pending with
  | object _ => deleteData
  | null | undefined => ret tt
  end.

Definition getData : M Store (list ref) := gets data.

Definition setData (newData : list ref) : M Store unit :=
  modify (set_data newData);;
  saveData.

(** [JSON.parse] builds new objects: the result is the stored value. *)
Definition getDeletedData : M Store (list JSON) :=
  let* stored := gets appStateDeletedData in
  ret (default [] stored).

Definition setDeletedData (newDeletedData : list target) : M Store unit :=
  modify (set_deletedData (object (Arr newDeletedData)));;
  saveData.

End Objects.

(** ** The language of a pattern

    What it means for a whole string to match, against which [test] is
    checked below. *)

Inductive matches : regex -> jsstring -> Prop :=
| MEps : matches Eps []
| MClass p c : p c = true -> matches (Class p) [c]
| MCat r1 r2 s1 s2 :
    matches r1 s1 -> matches r2 s2 -> matches (Cat r1 r2) (s1 ++ s2)
| MAltL r1 r2 s : matches r1 s -> matches (Alt r1 r2) s
| MAltR r1 r2 s : matches r2 s -> matches (Alt r1 r2) s
| MStar0 r : matches (Star r) []
| MStarS r s1 s2 :
    matches r s1 -> matches (Star r) s2 -> matches (Star r) (s1 ++ s2).

(** * Properties *)

(** ** Validation *)





Lemma validateField_age (rt : DateRuntime) (v : jsstring) :
  validateField rt (u "age") v
  = if nonEmpty (trim v)
    then if between10and100 (parseInt v 10) then None
         else Some "Age must be between 10 and 100"%string
    else Some "Age is required"%string.
Proof.
  assert (Hrules : rulesOf (validationRules rt) (u "age")
                   = Some [("required", required "Age is required");
                           ("validRange",
                             {| logic := fun value => between10and100 (parseInt value 10);
                                errorMessage := "Age must be between 10 and 100" |})]%string)
    by (vm_compute; reflexivity).
  unfold validateField, validateFieldTraced. rewrite Hrules.
  cbn -[parseInt trim nonEmpty between10and100].
  destruct (nonEmpty (trim v)); cbn -[parseInt between10and100]; [|reflexivity].
  destruct (between10and100 (parseInt v 10)); reflexivity.
Qed.

Lemma between10and100_spec (x : number) :
  between10and100 x = true <-> exists n, x = Num n /\ (10 <= n <= 100)%Z.
Proof.
  destruct x as [z|]; simpl.
  - rewrite andb_true_iff, !Z.leb_le. split.
    + intros H. exists z. split; [reflexivity|lia].
    + intros (n & [= ->] & H). lia.
  - split; [discriminate|]. intros (n & [=] & _).
Qed.

Lemma radixDigit_10 (c : N) :
  radixDigit 10 c = if isDigit c then Some (c - 48) else None.
Proof.
  unfold radixDigit, digitValue, isDigit.
  destruct ((48 <=? c) && (c <=? 57)) eqn:Hd.
  - apply andb_true_iff in Hd as [H1 H2]. apply N.leb_le in H1, H2.
    destruct (c - 48 <? 10) eqn:Hlt; [reflexivity|].
    apply N.ltb_ge in Hlt. lia.
  - destruct ((97 <=? c) && (c <=? 122)) eqn:Hl.
    + apply andb_true_iff in Hl as [H1 _]. apply N.leb_le in H1.
      destruct (c - 87 <? 10) eqn:Hlt; [|reflexivity].
      apply N.ltb_lt in Hlt. lia.
    + destruct ((65 <=? c) && (c <=? 90)) eqn:Hu; [|reflexivity].
      apply andb_true_iff in Hu as [H1 _]. apply N.leb_le in H1.
      destruct (c - 55 <? 10) eqn:Hlt; [|reflexivity].
      apply N.ltb_lt in Hlt. lia.
Qed.

(** [parseInt(v, 10)] is NaN exactly when no decimal digit follows the
    leading white space and the optional sign. *)
Lemma parseInt_10_NaN (v : jsstring) :
  parseInt v 10 = NaN <-> startsWithDigit (stripSign (trimStart v)) = false.
Proof.
  unfold parseInt. cbn [N.eqb Pos.eqb negb andb orb N.ltb N.compare Pos.compare
                        Pos.compare_cont].
  destruct (stripSign (trimStart v)) as [|c r]; [easy|].
  cbn [digitsPrefix startsWithDigit]. rewrite radixDigit_10.
  destruct (isDigit c); easy.
Qed.

(** C10, as the code has it.  [validateField("age", v)] returns [null]
    exactly when [v.trim()] is not empty and [Number.parseInt(v, 10)] is a
    number from 10 to 100; so ["15abc"] passes.  A string that is not
    blank and has no decimal digit behind its leading white space and one
    optional sign, so that [parseInt] yields NaN, fails with the range
    message, not the required one. *)
Theorem validateField_age_spec (rt : DateRuntime) (v : jsstring) :
  (validateField rt (u "age") v = None
   <-> nonEmpty (trim v) = true
       /\ exists n, parseInt v 10 = Num n /\ (10 <= n <= 100)%Z)
  /\ validateField rt (u "age") (u "15abc") = None
  /\ (nonEmpty (trim v) = true ->
      startsWithDigit (stripSign (trimStart v)) = false ->
      validateField rt (u "age") v = Some "Age must be between 10 and 100"%string).
Proof.
  split; [|split].
  - rewrite validateField_age, <- between10and100_spec.
    destruct (nonEmpty (trim v)), (between10and100 (parseInt v 10));
      split; try discriminate; try tauto; intros [? ?]; discriminate.
  - rewrite validateField_age. reflexivity.
  - intros Hne Hnan. apply parseInt_10_NaN in Hnan.
    rewrite validateField_age, Hne, Hnan. reflexivity.
Qed.

Lemma validateField_age_spec_witness :
  validateField isoDates (u "age") (u "abc")
  = Some "Age must be between 10 and 100"%string.
Proof.
  apply (validateField_age_spec isoDates (u "abc")); reflexivity.
Defined.

(** The claim's last clause fails as it stands: the empty string has no
    leading digit and gets the required message, and ["+15"] has none
    either and passes. *)
Lemma age_without_leading_digit_counterexample :
  ~ (forall v, startsWithDigit v = false ->
       validateField isoDates (u "age") v
       = Some "Age must be between 10 and 100"%string)
  /\ startsWithDigit (u "") = false
  /\ validateField isoDates (u "age") (u "") = Some "Age is required"%string
  /\ startsWithDigit (u "+15") = false
  /\ validateField isoDates (u "age") (u "+15") = None.
Proof.
  split; [|repeat split].
  intros H. specialize (H (u "") eq_refl). discriminate H.
Qed.

(** ** Event bus *)

Section EventEmitterFacts.
Context {W Arg : Type}.
Implicit Types (listeners : gmap jsstring (list (@Callback W Arg))).
Implicit Types (calls : list (jsstring * @Callback W Arg)).

Lemma on_returns listeners e cb :
  is_Some (listeners !! e) \/ inherited e = false ->
  on e cb listeners = Some (<[e := default [] (listeners !! e) ++ [cb]]> listeners).
Proof.
  unfold on. intros [[l Hl]|Hplain].
  - rewrite Hl. reflexivity.
  - destruct (listeners !! e); [reflexivity|]. rewrite Hplain. reflexivity.
Qed.

Lemma on_throws listeners e cb :
  listeners !! e = None -> inherited e = true -> on e cb listeners = None.
Proof. intros Hl Hin. unfold on. rewrite Hl, Hin. reflexivity. Qed.

(** The callbacks among [calls] that were registered for [e], in
    registration order. *)
Lemma lookup_fold_on calls : forall listeners,
  Forall (fun c => inherited (fst c) = false) calls ->
  exists listeners',
    fold_left (fun acc c => match acc with
                            | Some l => on (fst c) (snd c) l
                            | None => None
                            end) calls (Some listeners) = Some listeners'
    /\ forall e,
        listeners' !! e
        = match filter (fun c => fst c = e) calls with
          | [] => listeners !! e
          | regs => Some (default [] (listeners !! e) ++ map snd regs)
          end.
Proof.
  induction calls as [|[e0 cb0] calls IH]; intros listeners Hplain.
  - exists listeners. split; [reflexivity|]. intros e. reflexivity.
  - inversion Hplain as [|c cs Hc Hcs]; subst. cbn [fst] in Hc.
    cbn [fold_left fst snd]. rewrite on_returns by (right; exact Hc).
    destruct (IH (<[e0 := default [] (listeners !! e0) ++ [cb0]]> listeners) Hcs)
      as (listeners' & Hfold & Hlookup).
    exists listeners'. split; [exact Hfold|]. intros e.
    rewrite Hlookup, filter_cons. cbn [fst].
    destruct (decide (e0 = e)) as [->|Hne].
    + rewrite lookup_insert_eq. cbn [map snd default].
      destruct (filter _ calls) as [|c regs].
      * reflexivity.
      * simpl. now rewrite <- app_assoc.
    + now rewrite lookup_insert_ne.
Qed.

Lemma lookup_registering calls :
  Forall (fun c => inherited (fst c) = false) calls ->
  exists listeners,
    registering calls = Some listeners
    /\ forall e,
        listeners !! e
        = match filter (fun c => fst c = e) calls with
          | [] => None
          | regs => Some (map snd regs)
          end.
Proof.
  intros Hplain. destruct (lookup_fold_on calls ∅ Hplain) as (l & Hfold & Hlookup).
  exists l. split; [exact Hfold|]. intros e. rewrite Hlookup, lookup_empty.
  reflexivity.
Qed.


(** Calling the callbacks one after the other, written without
    [forEach]: each is called on the arguments and on the world the one
    before it left, and an exception ends the series. *)
Lemma forEach_calls_each (l : list (@Callback W Arg)) (a : list Arg) : forall w,
  forEach l a w
  = fold_left (fun o callback => match o with
                                 | Returns _ w' => callback a w'
                                 | Throws => Throws
                                 end) l (Returns tt w).
Proof.
  induction l as [|cb l IH]; intros w; [reflexivity|].
  cbn [forEach fold_left]. unfold bind.
  destruct (cb a w) as [[] w'|]; [apply IH|].
  clear. induction l as [|cb' l IH]; [reflexivity|exact IH].
Qed.

(** C7.  The claim holds for every event name but the twelve property
    names of [Object.prototype].  On an emitter built by any series of
    [on] calls with other names, [emit(e, ...a)] for such an [e] calls the
    callbacks registered for [e], and only those, each on the arguments
    [a], one after the other in registration order (the result is written
    here as the chain of these calls); with no callback registered it
    does nothing, and a callback registered twice is in the list twice,
    so it is called twice.  For an inherited name, [toString] for
    instance, [emit] throws instead of doing nothing, and so does [on]:
    no callback can be registered under it. *)
Theorem emit_runs_registered_callbacks_in_order
  calls (e : jsstring) (a : list Arg) (w : W) :
  Forall (fun c => inherited (fst c) = false) calls ->
  exists listeners,
    registering calls = Some listeners
    /\ (inherited e = false ->
        emit listeners e a w
        = fold_left (fun o callback => match o with
                                       | Returns _ w' => callback a w'
                                       | Throws => Throws
                                       end)
            (map snd (filter (fun c => fst c = e) calls)) (Returns tt w))
    /\ (inherited e = true ->
        emit listeners e a w = Throws
        /\ forall cb, on e cb listeners = None).
Proof.
  intros Hplain. destruct (lookup_registering calls Hplain) as (l & Hreg & Hlookup).
  exists l. split; [exact Hreg|]. split.
  - intros He. unfold emit. rewrite Hlookup.
    destruct (filter (fun c => fst c = e) calls) as [|c regs] eqn:Hregs.
    + rewrite He. reflexivity.
    + apply forEach_calls_each.
  - intros He.
    assert (Hnone : l !! e = None).
    { rewrite Hlookup.
      destruct (filter (fun c => fst c = e) calls) as [|c regs] eqn:Hregs;
        [reflexivity|].
      assert (Hc : c ∈ filter (fun c => fst c = e) calls)
        by (rewrite Hregs; apply list_elem_of_here).
      apply list_elem_of_filter in Hc. destruct Hc as [Hce Hc].
      rewrite Forall_forall in Hplain. specialize (Hplain c Hc).
      rewrite Hce, He in Hplain. discriminate. }
    split.
    + unfold emit. rewrite Hnone, He. reflexivity.
    + intros cb. apply on_throws; assumption.
Qed.
End EventEmitterFacts.

Lemma emit_runs_registered_callbacks_in_order_witness :
  let log (tag : N) : @Callback (list (N * list N)) N :=
    fun args w => Returns tt (w ++ [(tag, args)]) in
  exists listeners,
    registering [(u "a", log 1); (u "b", log 2); (u "a", log 3); (u "a", log 1)]
    = Some listeners
    /\ emit listeners (u "a") [7; 8] []
       = Returns tt [(1, [7; 8]); (3, [7; 8]); (1, [7; 8])]
    /\ emit listeners (u "c") [7; 8] [] = Returns tt []
    /\ emit listeners (u "toString") [7; 8] [] = Throws
    /\ on (u "toString") (log 4) listeners = None.
Proof.
  intros log.
  destruct (emit_runs_registered_callbacks_in_order
              [(u "a", log 1); (u "b", log 2); (u "a", log 3); (u "a", log 1)]
              (u "a") [7; 8] [])
    as (l & Hreg & Ha & _).
  { repeat constructor. }
  exists l. split; [exact Hreg|].
  split; [rewrite Ha; reflexivity|].
  injection Hreg as <-. repeat split; vm_compute; reflexivity.
Defined.

(** The seven [on] calls of [addEventListeners] all return. *)
Lemma addEventListeners_returns :
  registering subscriptions = Some addEventListeners.
Proof.
  destruct (lookup_registering subscriptions) as (l & Hl & _).
  { repeat constructor. }
  unfold addEventListeners. rewrite Hl. reflexivity.
Qed.

(** ** State store *)

(** Unfolds the plumbing of a computation. *)
Ltac js_run :=
  unfold setDeletedData, setData, getDeletedData, getData, saveData,
    deleteData, stamp, initializeComponents, bind, gets, modify, ret, throw;
  cbn.

(** [saveData] never throws: it stamps the pending value only behind the
    truthiness test. *)
Lemma saveData_run (w : World) :
  saveData w
  = Returns tt
      match deletedData w with
      | value v =>
          mkWorld (Some (data w))
            (Some (default [] (appStateDeletedData w) ++ [stamped (nowISO w) v]))
            (dates w) (nowMs w) (nowISO w) (data w) null
            (dataToBeRestore w) (formComponent w)
      | _ => set_appStateData (Some (data w)) w
      end.
Proof. js_run. destruct (deletedData w) eqn:E; cbn; rewrite ?E; reflexivity. Qed.

(** Each flush makes the stored history one entry longer; nothing on this
    path shortens it. *)
Lemma saveData_grows_history (w : World) :
  exists w', saveData w = Returns tt w'
             /\ length (default [] (appStateDeletedData w'))
                = (length (default [] (appStateDeletedData w))
                   + if truthy (deletedData w) then 1 else 0)%nat.
Proof.
  rewrite saveData_run. eexists. split; [reflexivity|].
  destruct (deletedData w); cbn; rewrite ?length_app; cbn; lia.
Qed.

Lemma setData_run (x : list FormData) (w : World) :
  setData x w = saveData (set_data x w).
Proof. reflexivity. Qed.

Lemma setDeletedData_run (h : list json) (w : World) :
  setDeletedData h w = saveData (set_deletedData (value (JArray h)) w).
Proof. reflexivity. Qed.

Lemma setData_data (x : list FormData) (w : World) :
  exists w', setData x w = Returns tt w'
             /\ data w' = x /\ appStateData w' = Some x
             /\ truthy (deletedData w') = false.
Proof.
  rewrite setData_run, saveData_run. cbn.
  destruct (deletedData w) eqn:E; eexists; (split; [reflexivity|]);
    cbn; rewrite ?E; repeat split; reflexivity.
Qed.

Lemma setData_nothing_pending (x : list FormData) (w : World) :
  truthy (deletedData w) = false ->
  setData x w
  = Returns tt
      (mkWorld (Some x) (appStateDeletedData w) (dates w) (nowMs w) (nowISO w)
         x (deletedData w) (dataToBeRestore w) (formComponent w)).
Proof.
  intros Hslot. rewrite setData_run, saveData_run.
  unfold set_appStateData, set_data. cbn.
  destruct (deletedData w); [reflexivity|reflexivity|discriminate Hslot].
Qed.

(** C8.  [setData(x)] returns, and [getData()] then returns [x]: the same
    objects in the same order.  The call writes into no record but the
    one pending in [deletedData], which gets its time stamp whether or
    not it is one of [x]; the storage holds the text written before that
    stamp.  [getData()] changes nothing, so two calls in a row return the
    same list of the same objects; [getDeletedData] changes nothing
    either, and [setDeletedData] leaves the active list and every record
    object as they are. *)
Theorem setData_getData_round_trip (s : Objects.Store) (x : list Objects.ref) :
  (exists s',
      Objects.setData x s = Returns tt s'
      /\ Objects.getData s' = Returns x s'
      /\ (forall a,
            Objects.heap s' a
            = match Objects.deletedData s with
              | Objects.object (Objects.Rec b) =>
                  if Nat.eqb b a
                  then withTimeStamp (Objects.nowISO s) (Objects.heap s a)
                  else Objects.heap s a
              | _ => Objects.heap s a
              end)
      /\ Objects.appStateData s'
         = Some (Objects.JList
                   (map (fun a => Objects.jsonOfRecord (Objects.heap s a)) x)))
  /\ (let* a := Objects.getData in let* b := Objects.getData in ret (a, b)) s
     = Returns (Objects.data s, Objects.data s) s
  /\ (exists h, Objects.getDeletedData s = Returns h s)
  /\ (forall h, exists s',
        Objects.setDeletedData h s = Returns tt s'
        /\ Objects.getData s' = Returns (Objects.data s) s'
        /\ forall a, Objects.heap s' a = Objects.heap s a).
Proof.
  split; [|split; [|split]].
  - unfold Objects.setData, Objects.saveData, Objects.deleteData, Objects.getData,
      bind, gets, modify, ret, throw.
    destruct s as [h d [| |[b|l]] active deleted t]; cbn;
      eexists; (split; [reflexivity|]); (split; [reflexivity|]);
      split; reflexivity.
  - reflexivity.
  - eexists. reflexivity.
  - intros h.
    unfold Objects.setDeletedData, Objects.saveData, Objects.deleteData,
      Objects.getData, bind, gets, modify, ret, throw.
    destruct s as [hp d p active deleted t]; cbn.
    eexists. split; [reflexivity|]. split; reflexivity.
Qed.

Lemma app_singleton_not_records (old : list json) (l : list json) (h : list FormData) :
  old ++ [JArray l] <> map JRecord h.
Proof.
  revert h. induction old as [|e old IH]; intros [|r h]; cbn; try discriminate.
  intros [= _ H]. exact (IH h H).
Qed.

(** C1, what the code does.  [setDeletedData(h)] does not make [h] the
    stored history: it pushes [h], as one element, behind the entries
    already stored, so that [getDeletedData()] never returns [h]
    afterwards. *)
Theorem setDeletedData_pushes_its_argument (w : World) (h : list FormData) :
  exists w',
    setDeletedData (map JRecord h) w = Returns tt w'
    /\ getDeletedData w'
       = Returns (default [] (appStateDeletedData w) ++ [JArray (map JRecord h)]) w'
    /\ getDeletedData w' <> Returns (map JRecord h) w'.
Proof.
  rewrite setDeletedData_run, saveData_run. eexists. split; [reflexivity|].
  split; [reflexivity|].
  js_run. intros [= H]. exact (app_singleton_not_records _ _ _ H).
Qed.

(** C4, what the code does.  When the storage holds a deleted history,
    the constructor leaves the whole list in [deletedData]; the next
    [setData] then pushes that list, as one element, onto the history. *)
Theorem loadData_leaves_history_in_slot
  (w : World) (h : list json) (x : list FormData) :
  deletedData (newAppStateManager (set_appStateDeletedData (Some h) w))
  = value (JArray h)
  /\ exists w',
      setData x (newAppStateManager (set_appStateDeletedData (Some h) w))
      = Returns tt w'
      /\ appStateDeletedData w' = Some (h ++ [JArray h]).
Proof.
  split.
  - unfold newAppStateManager, loadData. cbn. destruct (appStateData w); reflexivity.
  - rewrite setData_run, saveData_run. eexists. split; [reflexivity|].
    unfold newAppStateManager, loadData. cbn. destruct (appStateData w); reflexivity.
Qed.

(** ** Controller *)

Lemma emit_deleteData (i : jsstring) (w : World) :
  emit addEventListeners (u "deleteData") [ArgId i] w = handleDeleteData i w.
Proof.
  assert (Hl : addEventListeners !! u "deleteData" = Some [onId handleDeleteData])
    by (vm_compute; reflexivity).
  unfold emit. rewrite Hl. cbn [forEach onId]. unfold bind, ret.
  destruct (handleDeleteData i w) as [[] w'|]; reflexivity.
Qed.

Lemma emit_restoreDeleteData (i : jsstring) (w : World) :
  emit addEventListeners (u "restoreDeleteData") [ArgId i] w
  = handleRestoreDeleteData i w.
Proof.
  assert (Hl : addEventListeners !! u "restoreDeleteData"
               = Some [onId handleRestoreDeleteData])
    by (vm_compute; reflexivity).
  unfold emit. rewrite Hl. cbn [forEach onId]. unfold bind, ret.
  destruct (handleRestoreDeleteData i w) as [[] w'|]; reflexivity.
Qed.

Lemma emit_formSubmit (d : FormData) (w : World) :
  emit addEventListeners (u "formSubmit") [ArgData d] w = addData d w.
Proof.
  assert (Hl : addEventListeners !! u "formSubmit" = Some [onData addData])
    by (vm_compute; reflexivity).
  unfold emit. rewrite Hl. cbn [forEach onData]. unfold bind, ret.
  destruct (addData d w) as [[] w'|]; reflexivity.
Qed.

Lemma filter_absent (i : jsstring) (l : list FormData) :
  Forall (fun item => id item ≠ i) l ->
  filter (fun item => id item ≠ i) l = l.
Proof.
  induction 1 as [|r l Hr _ IH]; [reflexivity|].
  rewrite filter_cons, IH. destruct (decide (id r ≠ i)); [reflexivity|contradiction].
Qed.

Lemma find_absent (i : jsstring) (l : list FormData) :
  Forall (fun item => id item ≠ i) l ->
  find (fun item => streq (id item) i) l = None.
Proof.
  induction 1 as [|r l Hr _ IH]; [reflexivity|].
  cbn [find]. unfold streq at 1. rewrite bool_decide_eq_false_2 by exact Hr.
  exact IH.
Qed.

Lemma handleDeleteData_run (i : jsstring) (w : World) :
  handleDeleteData i w
  = Returns tt
      (mkWorld
         (Some (filter (fun item => id item ≠ i) (data w)))
         match find (fun item => streq (id item) i) (data w) with
         | Some R =>
             Some (default [] (appStateDeletedData w)
                   ++ [JRecord (withTimeStamp (nowISO w) R)])
         | None => appStateDeletedData w
         end
         (dates w) (nowMs w) (nowISO w)
         (filter (fun item => id item ≠ i) (data w))
         match find (fun item => streq (id item) i) (data w) with
         | Some _ => null
         | None => undefined
         end
         (dataToBeRestore w) (render None)).
Proof.
  unfold handleDeleteData, initializeComponents, getData, bind, gets, modify, ret.
  rewrite setData_run, saveData_run. cbn -[filter find].
  destruct (find _ (data w)); reflexivity.
Qed.

Lemma handleRestoreDeleteData_run (i : jsstring) (w : World) :
  handleRestoreDeleteData i w
  = Returns tt
      (mkWorld
         (Some (filter (fun item => id item ≠ i) (data w)))
         (appStateDeletedData w) (dates w) (nowMs w) (nowISO w)
         (filter (fun item => id item ≠ i) (data w))
         null (dataToBeRestore w) (render None)).
Proof.
  unfold handleRestoreDeleteData, initializeComponents, getData, bind, gets,
    modify, ret.
  rewrite setData_run, saveData_run. reflexivity.
Qed.

Lemma addData_run (d : FormData) (w : World) :
  addData d w
  = Returns tt
      match deletedData w with
      | value v =>
          mkWorld (Some (d :: data w))
            (Some (default [] (appStateDeletedData w) ++ [stamped (nowISO w) v]))
            (dates w) (nowMs w) (nowISO w) (d :: data w) null
            (dataToBeRestore w) (formComponent w)
      | _ =>
          mkWorld (Some (d :: data w)) (appStateDeletedData w)
            (dates w) (nowMs w) (nowISO w) (d :: data w) (deletedData w)
            (dataToBeRestore w) (formComponent w)
      end.
Proof.
  unfold addData, getData, bind, gets.
  rewrite setData_run, saveData_run. cbn.
  destruct (deletedData w) eqn:E; unfold set_appStateData, set_data; cbn;
    rewrite ?E; reflexivity.
Qed.

(** C9, as the code has it.  An id that no active record carries:
    [editItem] leaves the world as it is; [handleDeleteData],
    [handleRestoreDeleteData] and the modal's [confirmDelete] return
    without throwing and leave both what [getData()] and what
    [getDeletedData()] return unchanged.  An id that no stored deleted
    record carries: the restore pop-up has no button, so no handler runs
    and nothing happens. *)
Theorem absent_id_is_a_silent_no_op (w : World) (i : jsstring) :
  (Forall (fun item => id item ≠ i) (data w) ->
   editItem i w = Returns tt w
   /\ (exists w', handleDeleteData i w = Returns tt w'
                  /\ getData w' = Returns (data w) w'
                  /\ appStateDeletedData w' = appStateDeletedData w)
   /\ (exists w', handleRestoreDeleteData i w = Returns tt w'
                  /\ getData w' = Returns (data w) w'
                  /\ appStateDeletedData w' = appStateDeletedData w)
   /\ (forall typed, confirmDelete typed (Some i) w = Returns tt w))
  /\ (withId i (default [] (appStateDeletedData w)) = [] ->
      forall parsed k, restoreClick parsed i k w = Returns tt w).
Proof.
  split.
  - intros Habs. pose proof (find_absent i _ Habs) as Hfind.
    pose proof (filter_absent i _ Habs) as Hfilter.
    split; [|split; [|split]].
    + unfold editItem, getData, bind, gets. cbn -[find]. now rewrite Hfind.
    + rewrite handleDeleteData_run, Hfind, Hfilter.
      eexists. split; [reflexivity|]. split; reflexivity.
    + rewrite handleRestoreDeleteData_run, Hfilter.
      eexists. split; [reflexivity|]. split; reflexivity.
    + intros typed. unfold confirmDelete.
      destruct (streq (toLowerCase typed) (u "delete") && nonEmpty i);
        [|reflexivity].
      unfold getData, bind, gets. cbn -[find]. now rewrite Hfind.
  - intros Hnone parsed k. unfold restoreClick, bind, gets. cbn -[withId].
    rewrite Hnone. reflexivity.
Qed.

Lemma absent_id_is_a_silent_no_op_witness :
  let w := pageOver (Some [person "1" "Ana"; person "2" "Ben"])
             (Some [JRecord (person "3" "Cy")]) in
  editItem (u "9") w = Returns tt w
  /\ (exists w', handleDeleteData (u "9") w = Returns tt w'
                 /\ getData w' = Returns (data w) w'
                 /\ appStateDeletedData w' = appStateDeletedData w)
  /\ restoreClick (fun _ => []) (u "9") 0 w = Returns tt w.
Proof.
  intros w.
  destruct (absent_id_is_a_silent_no_op w (u "9")) as [Hactive Hdeleted].
  destruct Hactive as (He & Hd & _).
  { unfold w. repeat constructor; vm_compute; discriminate. }
  split; [exact He|]. split; [exact Hd|].
  apply Hdeleted. reflexivity.
Defined.

(** The claim fails as it stands for the restore handler, which never
    looks at the deleted history: with [Ana] active under id 1 and an
    empty history, no deleted record carries id 1, and
    [handleRestoreDeleteData] on id 1 removes [Ana] from the active set
    and from the stored copy. *)
Lemma restore_handler_absent_from_history_counterexample :
  let w := pageOver (Some [person "1" "Ana"; person "2" "Ben"]) None in
  withId (u "1") (default [] (appStateDeletedData w)) = []
  /\ getData w = Returns [person "1" "Ana"; person "2" "Ben"] w
  /\ exists w',
      handleRestoreDeleteData (u "1") w = Returns tt w'
      /\ getData w' = Returns [person "2" "Ben"] w'
      /\ appStateData w' = Some [person "2" "Ben"].
Proof.
  intros w. split; [reflexivity|]. split; [reflexivity|].
  eexists. split; [vm_compute; reflexivity|]. split; reflexivity.
Qed.

Lemma find_middle (i : jsstring) (before after : list FormData) (R : FormData) :
  Forall (fun item => id item ≠ i) before -> id R = i ->
  find (fun item => streq (id item) i) (before ++ R :: after) = Some R.
Proof.
  intros Hb HR. induction Hb as [|r before Hr _ IH]; cbn [find app].
  - unfold streq. now rewrite bool_decide_eq_true_2.
  - unfold streq at 1. now rewrite bool_decide_eq_false_2.
Qed.

Lemma filter_middle (i : jsstring) (before after : list FormData) (R : FormData) :
  Forall (fun item => id item ≠ i) before ->
  Forall (fun item => id item ≠ i) after -> id R = i ->
  filter (fun item => id item ≠ i) (before ++ R :: after) = before ++ after.
Proof.
  intros Hb Ha HR. rewrite filter_app, filter_cons.
  rewrite (filter_absent i before Hb), (filter_absent i after Ha).
  destruct (decide (id R ≠ i)); [contradiction|reflexivity].
Qed.

(** C3, what the code does.  Deleting the id [i] leaves no active record
    with that id, whatever the active set was.  The table writes one
    restore button per active record, with that record's id, and
    [openRestorePopup] is opened from such a button only: none is written
    for [i].  The restore modal is no way either: what [showRestoreModal]
    writes into it is the empty string, for any history.  So the page
    offers no control to restore the deleted record; it stays where the
    deletion put it, stamped, at the end of the stored history.  Where
    [handleRestore] does run, on a stored version of a record that is
    still active, it puts that version at position 0 of the active set,
    not at its end, drops the active records of the id, and leaves the
    stored history as it is, the restored entry included. *)
Theorem delete_and_restore_as_coded
  (w : World) (i : jsstring) (ms : N) (iso : jsstring) (row : FormData) :
  (exists w1,
      handleDeleteData i w = Returns tt w1
      /\ Forall (fun item => id item ≠ i) (data w1)
      /\ data w1 = filter (fun item => id item ≠ i) (data w)
      /\ (forall R, find (fun item => streq (id item) i) (data w) = Some R ->
          appStateDeletedData w1
          = Some (default [] (appStateDeletedData w)
                  ++ [JRecord (withTimeStamp (nowISO w) R)]))
      /\ showRestoreModal (tick ms iso w1) = Returns [] (tick ms iso w1))
  /\ (exists w',
      handleRestore (Some row) w = Returns tt w'
      /\ data w' = row :: filter (fun item => id item ≠ id row) (data w)
      /\ appStateData w' = Some (data w')
      /\ appStateDeletedData w' = appStateDeletedData w).
Proof.
  assert (Hfilter : Forall (fun item => id item ≠ i)
                      (filter (fun item => id item ≠ i) (data w))).
  { apply Forall_forall. intros r Hr. apply list_elem_of_filter in Hr. tauto. }
  assert (Hmodal : forall w', showRestoreModal w' = Returns [] w').
  { intros w'.
    unfold showRestoreModal, getLastThreeSubmissions, getDeletedData, bind, gets, ret.
    f_equal. unfold restoreOptionsMarkup.
    induction (take 3 _) as [|x l IH]; [reflexivity|exact IH]. }
  split.
  - rewrite handleDeleteData_run.
    destruct (find (fun item => streq (id item) i) (data w)) as [R0|] eqn:Hfind;
      cbn [found]; eexists; (split; [reflexivity|]);
      (split; [exact Hfilter|]); (split; [reflexivity|]);
      (split; [|apply Hmodal]).
    + intros R [= <-]. reflexivity.
    + intros R HR. discriminate HR.
  - unfold handleRestore, bind.
    rewrite emit_restoreDeleteData, handleRestoreDeleteData_run.
    rewrite emit_formSubmit, addData_run. cbn -[filter].
    eexists. split; [reflexivity|]. repeat split; reflexivity.
Qed.

(** ** Form submission *)

Lemma uintUnits_inj (d d' : Decimal.uint) : uintUnits d = uintUnits d' -> d = d'.
Proof.
  revert d'. induction d; intros []; cbn; try discriminate;
    intros H; try reflexivity; injection H as H; f_equal; auto.
Qed.

Lemma toString_inj (n n' : N) : toString n = toString n' -> n = n'.
Proof.
  intros H. apply DecimalN.Unsigned.to_uint_inj, uintUnits_inj, H.
Qed.

(** For an age the rule table accepts, [parseInt] without a radix reads
    the same number as [parseInt] with radix 10. *)
Lemma parseInt_without_radix (v : jsstring) (n : Z) :
  parseInt v 10 = Num n -> (10 <= n)%Z -> parseInt v 0 = Num n.
Proof.
  unfold parseInt. cbn [N.eqb Pos.eqb negb andb orb N.ltb N.compare Pos.compare
                        Pos.compare_cont].
  set (S0 := trimStart v). set (S1 := stripSign S0).
  destruct (hexPrefixed S1) eqn:Hhex; [|exact (fun H _ => H)].
  destruct S1 as [|c [|x rest]]; try discriminate Hhex.
  cbn in Hhex. apply andb_true_iff in Hhex as [Hc Hx].
  apply N.eqb_eq in Hc. subst c.
  assert (Hnd : radixDigit 10 x = None).
  { apply orb_true_iff in Hx as [Hx|Hx]; apply N.eqb_eq in Hx; subst x;
      reflexivity. }
  cbn [digitsPrefix]. rewrite Hnd.
  change (radixDigit 10 48) with (Some 0).
  cbn. destruct (match S0 with c :: _ => c =? 45 | [] => false end);
    intros [= <-]; lia.
Qed.

Lemma validateForm_age (rt : DateRuntime) (form : jsstring -> jsstring) :
  validateForm rt form = true ->
  exists n, parseInt (form (u "age")) 10 = Num n /\ (10 <= n <= 100)%Z.
Proof.
  unfold validateForm, fieldNames. cbn [forallb map].
  rewrite !andb_true_iff. intros (_ & _ & _ & _ & Hage & _).
  rewrite validateField_age in Hage.
  apply between10and100_spec.
  destruct (nonEmpty (trim (form (u "age")))); [|discriminate Hage].
  destruct (between10and100 (parseInt (form (u "age")) 10));
    [reflexivity|discriminate Hage].
Qed.

(** C5, as the code has it.  On a form that passes [validateForm], in
    create mode, [handleSubmit] returns with the new record at position 0
    of the active set and the earlier records after it, in their order.
    The record carries the submitted strings as they are, the age as the
    number [parseInt] reads, which is between 10 and 100, and as id the
    decimal digits of the clock's milliseconds.  Nothing compares that id
    with the ids in use: it differs from all of them when each of them
    was made from another clock reading. *)
Theorem handleSubmit_prepends_the_record (w : World) (form : jsstring -> jsstring) :
  validateForm (dates w) form = true ->
  formComponent w = render None ->
  exists w' n,
    handleSubmit form w = Returns tt w'
    /\ data w' = submitted w form :: data w
    /\ id (submitted w form) = toString (nowMs w)
    /\ (name (submitted w form) = form (u "name")
        /\ phone (submitted w form) = form (u "phone")
        /\ email (submitted w form) = form (u "email")
        /\ dob (submitted w form) = form (u "dob")
        /\ country (submitted w form) = form (u "country")
        /\ state (submitted w form) = form (u "state")
        /\ city (submitted w form) = form (u "city")
        /\ zip (submitted w form) = form (u "zip"))
    /\ (age (submitted w form) = Num n
        /\ parseInt (form (u "age")) 10 = Num n /\ (10 <= n <= 100)%Z)
    /\ (Forall (fun r => exists t, id r = toString t /\ t <> nowMs w) (data w) ->
        Forall (fun r => id r <> id (submitted w form)) (data w)).
Proof.
  intros Hvalid Hform.
  destruct (validateForm_age _ _ Hvalid) as (n & Hn & Hrange).
  assert (Hid : id (submitted w form) = toString (nowMs w)).
  { unfold submitted. rewrite Hform. reflexivity. }
  eexists. exists n. split.
  - unfold handleSubmit, bind, gets. rewrite Hvalid, Hform.
    cbn -[emit addEventListeners u submitted].
    rewrite emit_formSubmit, addData_run. unfold modify. reflexivity.
  - split.
    { cbn. destruct (deletedData w); reflexivity. }
    split; [exact Hid|]. split; [repeat split|]. split.
    + split; [|split; [exact Hn|exact Hrange]].
      cbn. apply parseInt_without_radix; [exact Hn|lia].
    + intros Hall. rewrite Hid. eapply Forall_impl; [exact Hall|].
      cbn. intros r (t & Hr & Ht) Heq. rewrite Hr in Heq.
      apply toString_inj in Heq. contradiction.
Qed.

Lemma handleSubmit_prepends_the_record_witness :
  let w := pageOver (Some [person "1690000000000" "Ben"]) None in
  exists w',
    handleSubmit sampleForm w = Returns tt w'
    /\ data w' = [submitted w sampleForm; person "1690000000000" "Ben"]
    /\ id (submitted w sampleForm) = u "1700000000000"
    /\ age (submitted w sampleForm) = Num 24.
Proof.
  intros w.
  destruct (handleSubmit_prepends_the_record w sampleForm)
    as (w' & n & Hrun & Hdata & Hid & _ & (Hage & _) & _).
  - vm_compute. reflexivity.
  - reflexivity.
  - exists w'. split; [exact Hrun|]. split; [exact Hdata|].
    split; [exact Hid|reflexivity].
Defined.

(** The claim fails as it stands: when an active record already carries
    the digits of the current clock reading, the new record gets the same
    id. *)
Lemma handleSubmit_id_counterexample :
  let w := pageOver (Some [person "1700000000000" "Ben"]) None in
  validateForm (dates w) sampleForm = true
  /\ exists w' r,
      handleSubmit sampleForm w = Returns tt w'
      /\ data w' = [r; person "1700000000000" "Ben"]
      /\ id r = id (person "1700000000000" "Ben").
Proof.
  intros w. split; [vm_compute; reflexivity|].
  eexists. eexists. split; [vm_compute; reflexivity|].
  split; reflexivity.
Qed.

(** ** The history cap *)

(** C2, what the code does.  Five records are active and the history is
    empty.  Four deletions confirmed in the table's pop-up leave four
    records in the history, oldest first: [handleDeleteData] has no cap.
    Four deletions confirmed in the modal, where [confirmDelete] cuts the
    list it passes to [setDeletedData] to three, leave four entries too,
    none of them a record: each is the list that was passed, pushed as
    one element. *)
Theorem four_deletions_leave_four_entries :
  let w := pageOver (Some [person "1" "Ana"; person "2" "Ben"; person "3" "Cy";
                           person "4" "Dee"; person "5" "Eli"]) None in
  let t := nowISO w in
  (exists w',
      (confirmDeleteButton (u "delete") (u "1");;
       confirmDeleteButton (u "delete") (u "2");;
       confirmDeleteButton (u "delete") (u "3");;
       confirmDeleteButton (u "delete") (u "4")) w = Returns tt w'
      /\ getData w' = Returns [person "5" "Eli"] w'
      /\ getDeletedData w'
         = Returns [JRecord (withTimeStamp t (person "1" "Ana"));
                    JRecord (withTimeStamp t (person "2" "Ben"));
                    JRecord (withTimeStamp t (person "3" "Cy"));
                    JRecord (withTimeStamp t (person "4" "Dee"))] w')
  /\ (exists w',
      (confirmDelete (u "delete") (Some (u "1"));;
       confirmDelete (u "delete") (Some (u "2"));;
       confirmDelete (u "delete") (Some (u "3"));;
       confirmDelete (u "delete") (Some (u "4"))) w = Returns tt w'
      /\ getData w' = Returns [person "5" "Eli"] w'
      /\ getDeletedData w'
         = Returns
             (let e1 := JArray [JRecord (person "1" "Ana")] in
              let e2 := JArray [JRecord (person "2" "Ben"); e1] in
              let e3 := JArray [JRecord (person "3" "Cy"); e1; e2] in
              let e4 := JArray [JRecord (person "4" "Dee"); e1; e2] in
              [e1; e2; e3; e4]) w').
Proof.
  intros w t. split; eexists; (split; [vm_compute; reflexivity|]);
    split; vm_compute; reflexivity.
Qed.

(** ** Examples *)

(** Two logging callbacks on a world that is the log: the callback
    registered twice for ["a"] runs twice on an [emit] of ["a"], the one
    registered for ["b"] does not run. *)
Example emit_logs :
  let log (tag : N) : @Callback (list (N * list N)) N :=
    fun args w => Returns tt (w ++ [(tag, args)]) in
  exists listeners,
    registering [(u "a", log 1); (u "b", log 2); (u "a", log 3); (u "a", log 1)]
    = Some listeners
    /\ emit listeners (u "a") [7; 8] []
       = Returns tt [(1, [7; 8]); (3, [7; 8]); (1, [7; 8])].
Proof. intros log. eexists. split; vm_compute; reflexivity. Qed.

Example validateField_samples :
  validateField isoDates (u "email") (u "a@b") = Some "Invalid email format"%string
  /\ validateField isoDates (u "email") (u "a@b.com") = None
  /\ validateField isoDates (u "phone") (u "12345")
     = Some "Phone number must be exactly 10 digits"%string
  /\ validateField isoDates (u "age") (u "15") = None
  /\ validateField isoDates (u "age") (u "5")
     = Some "Age must be between 10 and 100"%string
  /\ validateForm isoDates sampleForm = true.
Proof. repeat split; vm_compute; reflexivity. Qed.

(** What the restore button of a row is for: after an edit, the earlier
    version of the record is in the history under the same id, and
    restoring it swaps it for the current version, at the front. *)
Example edit_update_restore :
  let w := pageOver (Some [person "1" "Bea"; person "2" "Ben"]) None in
  exists w1 w2,
    (editItem (u "1");; handleSubmit sampleForm) w = Returns tt w1
    /\ map name (data w1) = [u "Ana"; u "Ben"]
    /\ map id (data w1) = [u "1"; u "2"]
    /\ appStateDeletedData w1
       = Some [JRecord (withTimeStamp (nowISO w) (person "1" "Bea"))]
    /\ (forall parsed, restoreClick parsed (u "1") 0 w1 = Returns tt w2)
    /\ data w2 = [withTimeStamp (nowISO w) (person "1" "Bea"); person "2" "Ben"]
    /\ appStateDeletedData w2 = appStateDeletedData w1.
Proof.
  intros w. eexists. eexists.
  split; [vm_compute; reflexivity|].
  split; [vm_compute; reflexivity|].
  split; [vm_compute; reflexivity|].
  split; [vm_compute; reflexivity|].
  split; [intros parsed; vm_compute; reflexivity|].
  split; vm_compute; reflexivity.
Qed.

(** * Further properties *)

(** ** Patterns *)

Lemma matches_nullable (r : regex) : nullable r = true <-> matches r [].
Proof.
  split.
  - induction r; cbn; intros H; try discriminate.
    + constructor.
    + apply andb_true_iff in H as [H1 H2].
      change (@nil N) with (@nil N ++ []). constructor; auto.
    + apply orb_true_iff in H as [H|H]; [apply MAltL|apply MAltR]; auto.
    + constructor.
  - intros H. remember [] as s eqn:Hs.
    induction H; cbn; try reflexivity; try discriminate.
    + apply app_eq_nil in Hs as [-> ->]. rewrite IHmatches1, IHmatches2; auto.
    + rewrite IHmatches; auto.
    + rewrite IHmatches; auto. apply orb_true_r.
Qed.

Lemma matches_deriv_1 (c : N) (r : regex) :
  forall s, matches (deriv c r) s -> matches r (c :: s).
Proof.
  induction r; cbn; intros s H.
  - inversion H.
  - inversion H.
  - destruct (p c) eqn:Hp; inversion H; subst. now constructor.
  - destruct (nullable r1) eqn:Hn.
    + inversion H as [| | | ? ? ? H1 | ? ? ? H1 | |]; subst.
      * inversion H1; subst. change (c :: s1 ++ s2) with ((c :: s1) ++ s2).
        constructor; auto.
      * change (c :: s) with ([] ++ c :: s). constructor; auto.
        now apply matches_nullable.
    + inversion H; subst. change (c :: s1 ++ s2) with ((c :: s1) ++ s2).
      constructor; auto.
  - inversion H; subst; [apply MAltL|apply MAltR]; auto.
  - inversion H; subst. change (c :: s1 ++ s2) with ((c :: s1) ++ s2).
    constructor; auto.
Qed.

Lemma matches_deriv_2 (c : N) (r : regex) (s' : jsstring) :
  matches r s' -> forall s, s' = c :: s -> matches (deriv c r) s.
Proof.
  induction 1 as [|p c'|r1 r2 s1 s2 H1 IH1 H2 IH2|r1 r2 s0 H1 IH1|r1 r2 s0 H1 IH1
                  | |r0 s1 s2 H1 IH1 H2 IH2]; intros s Hs; cbn.
  - discriminate.
  - injection Hs as -> <-. rewrite H. constructor.
  - destruct s1 as [|c1 s1]; cbn in Hs.
    + subst s2. apply matches_nullable in H1. rewrite H1.
      apply MAltR. now apply IH2.
    + injection Hs as -> <-.
      destruct (nullable r1); [apply MAltL|]; constructor; auto.
  - apply MAltL. auto.
  - apply MAltR. auto.
  - discriminate.
  - destruct s1 as [|c1 s1]; cbn in Hs.
    + now apply IH2.
    + injection Hs as -> <-. constructor; auto.
Qed.

(** [test] decides the language. *)
Lemma test_matches (s : jsstring) : forall r, test r s = true <-> matches r s.
Proof.
  induction s as [|c s IH]; intros r; cbn.
  - apply matches_nullable.
  - rewrite IH. split.
    + apply matches_deriv_1.
    + intros H. now apply (matches_deriv_2 c r (c :: s)).
Qed.

Lemma matches_Star_Class (p : N -> bool) (s : jsstring) :
  matches (Star (Class p)) s <-> Forall (fun c => p c = true) s.
Proof.
  split.
  - intros H. remember (Star (Class p)) as r eqn:Hr.
    induction H; try discriminate.
    + constructor.
    + injection Hr as ->. inversion H; subst. constructor; auto.
  - induction 1 as [|c s Hc _ IH]; [constructor|].
    change (c :: s) with ([c] ++ s). constructor; [now constructor|exact IH].
Qed.

Lemma matches_Plus_Class (p : N -> bool) (s : jsstring) :
  matches (Plus (Class p)) s <-> s <> [] /\ Forall (fun c => p c = true) s.
Proof.
  unfold Plus. split.
  - intros H. inversion H as [| |? ? s1 s2 H1 H2| | | |]; subst.
    inversion H1; subst. apply matches_Star_Class in H2.
    split; [discriminate|]. constructor; auto.
  - intros [Hne Hall]. destruct Hall as [|c s Hc Hall]; [contradiction|].
    change (c :: s) with ([c] ++ s). constructor; [now constructor|].
    now apply matches_Star_Class.
Qed.

Lemma matches_Rep_Class (p : N -> bool) (n : nat) :
  forall s, matches (Rep n (Class p)) s
            <-> length s = n /\ Forall (fun c => p c = true) s.
Proof.
  induction n as [|n IH]; intros s; cbn [Rep].
  - split.
    + intros H. inversion H; subst. split; [reflexivity|constructor].
    + intros [Hl _]. destruct s; [constructor|discriminate].
  - split.
    + intros H. inversion H as [| |? ? s1 s2 H1 H2| | | |]; subst.
      inversion H1; subst. apply IH in H2 as [Hl Hall].
      split; [cbn; now rewrite Hl|]. constructor; auto.
    + intros [Hl Hall]. destruct Hall as [|c s Hc Hall]; [discriminate|].
      change (c :: s) with ([c] ++ s). constructor; [now constructor|].
      apply IH. split; [now injection Hl|exact Hall].
Qed.

Lemma matches_Chr (a : N) (s : jsstring) : matches (Chr a) s <-> s = [a].
Proof.
  unfold Chr. split.
  - intros H. inversion H; subst. f_equal. symmetry. now apply N.eqb_eq.
  - intros ->. constructor. apply N.eqb_refl.
Qed.

(** ** Blank values *)

Lemma trimStart_nil (s : jsstring) :
  trimStart s = [] <-> Forall (fun c => isWhiteSpace c = true) s.
Proof.
  induction s as [|c s IH]; cbn.
  - split; [constructor|reflexivity].
  - destruct (isWhiteSpace c) eqn:Hc.
    + rewrite IH. split; [now constructor|]. intros H. now inversion H.
    + split; [discriminate|]. intros H. inversion H; congruence.
Qed.

Lemma trimStart_blank (s : jsstring) :
  Forall (fun c => isWhiteSpace c = true) (trimStart s)
  <-> Forall (fun c => isWhiteSpace c = true) s.
Proof.
  induction s as [|c s IH]; cbn; [reflexivity|].
  destruct (isWhiteSpace c) eqn:Hc; [|reflexivity].
  rewrite IH. split; [now constructor|]. intros H. now inversion H.
Qed.

(** [v.trim() !== ""] fails exactly on the strings made of white space
    only, the empty one among them. *)
Lemma trim_blank (v : jsstring) :
  nonEmpty (trim v) = false <-> Forall (fun c => isWhiteSpace c = true) v.
Proof.
  rewrite <- trimStart_blank. unfold trim, trimEnd.
  set (s := trimStart v).
  assert (Hrev : Forall (fun c => isWhiteSpace c = true) (rev s)
                 <-> Forall (fun c => isWhiteSpace c = true) s).
  { split; intros H; [rewrite <- (rev_involutive s)|]; now apply Forall_rev. }
  rewrite <- Hrev, <- trimStart_nil.
  destruct (trimStart (rev s)) as [|c t] eqn:Ht; cbn.
  - split; reflexivity.
  - split; [|discriminate]. destruct (rev t); cbn; discriminate.
Qed.

Lemma nonblank_head (c : N) (s : jsstring) :
  isWhiteSpace c = false -> nonEmpty (trim (c :: s)) = true.
Proof.
  intros Hc. destruct (nonEmpty (trim (c :: s))) eqn:Hb; [reflexivity|].
  apply trim_blank in Hb. inversion Hb; congruence.
Qed.

Lemma digit_not_space (c : N) : isDigit c = true -> isWhiteSpace c = false.
Proof.
  unfold isDigit, isWhiteSpace. intros H.
  apply andb_true_iff in H as [H1 H2]. apply N.leb_le in H1, H2.
  repeat (apply orb_false_iff; split);
    try (apply N.eqb_neq; lia).
  apply andb_false_iff. left. apply N.leb_gt. lia.
Qed.

Lemma notSpaceAt_not_space (c : N) : notSpaceAt c = true -> isWhiteSpace c = false.
Proof.
  unfold notSpaceAt. intros H. apply negb_true_iff, orb_false_iff in H.
  tauto.
Qed.

(** ** The rules field by field *)

Lemma validateField_two (rt : DateRuntime) (f : jsstring) (msg1 n2 : string)
  (r2 : ValidationRule) (v : jsstring) :
  rulesOf (validationRules rt) f = Some [("required"%string, required msg1); (n2, r2)] ->
  validateField rt f v
  = if nonEmpty (trim v)
    then if logic r2 v then None else Some (errorMessage r2)
    else Some msg1.
Proof.
  intros Hrules. unfold validateField, validateFieldTraced. rewrite Hrules.
  cbn -[trim nonEmpty].
  destruct (nonEmpty (trim v)); cbn; [|reflexivity].
  destruct (logic r2 v); reflexivity.
Qed.

Lemma validateField_phone (rt : DateRuntime) (v : jsstring) :
  validateField rt (u "phone") v
  = if nonEmpty (trim v)
    then if test phonePattern v then None
         else Some "Phone number must be exactly 10 digits"%string
    else Some "Phone number is required"%string.
Proof.
  apply (validateField_two rt (u "phone") _ "format"
           {| logic := fun value => test phonePattern value;
              errorMessage := "Phone number must be exactly 10 digits" |}).
  vm_compute. reflexivity.
Qed.

Lemma validateField_zip (rt : DateRuntime) (v : jsstring) :
  validateField rt (u "zip") v
  = if nonEmpty (trim v)
    then if test zipPattern v then None
         else Some "Invalid ZIP code format (e.g., 12345 or 12345-6789)"%string
    else Some "ZIP code is required"%string.
Proof.
  apply (validateField_two rt (u "zip") _ "format"
           {| logic := fun value => test zipPattern value;
              errorMessage := "Invalid ZIP code format (e.g., 12345 or 12345-6789)" |}).
  vm_compute. reflexivity.
Qed.

Lemma validateField_email (rt : DateRuntime) (v : jsstring) :
  validateField rt (u "email") v
  = if nonEmpty (trim v)
    then if test emailPattern v then None
         else Some "Invalid email format"%string
    else Some "Email is required"%string.
Proof.
  apply (validateField_two rt (u "email") _ "format"
           {| logic := fun value => test emailPattern value;
              errorMessage := "Invalid email format" |}).
  vm_compute. reflexivity.
Qed.

Lemma test_phonePattern (v : jsstring) :
  test phonePattern v = true
  <-> length v = 10%nat /\ Forall (fun c => isDigit c = true) v.
Proof. rewrite test_matches. apply matches_Rep_Class. Qed.

Lemma test_zipPattern (v : jsstring) :
  test zipPattern v = true
  <-> (length v = 5%nat /\ Forall (fun c => isDigit c = true) v)
      \/ exists a b, v = a ++ 45 :: b
                     /\ length a = 5%nat /\ length b = 4%nat
                     /\ Forall (fun c => isDigit c = true) a
                     /\ Forall (fun c => isDigit c = true) b.
Proof.
  rewrite test_matches. unfold zipPattern, Opt. split.
  - intros H. inversion H as [| |? ? a s2 Ha H2| | | |]; subst.
    apply (matches_Rep_Class isDigit 5) in Ha as [Hla Ha].
    inversion H2 as [| | |? ? ? H3|? ? ? H3| |]; subst.
    + inversion H3 as [| |? ? d b Hd Hb| | | |]; subst.
      apply matches_Chr in Hd as ->.
      apply (matches_Rep_Class isDigit 4) in Hb as [Hlb Hb].
      right. exists a, b. cbn. auto.
    + inversion H3; subst. rewrite app_nil_r. left. auto.
  - intros [[Hl Hd]|(a & b & -> & Hla & Hlb & Ha & Hb)].
    + rewrite <- (app_nil_r v). constructor.
      * now apply matches_Rep_Class.
      * apply MAltR. constructor.
    + constructor.
      * now apply matches_Rep_Class.
      * apply MAltL. change (45 :: b) with ([45] ++ b). constructor.
        -- now apply matches_Chr.
        -- now apply matches_Rep_Class.
Qed.

Lemma test_emailPattern (v : jsstring) :
  test emailPattern v = true
  <-> exists l m t,
        v = l ++ 64 :: m ++ 46 :: t
        /\ l <> [] /\ m <> [] /\ t <> []
        /\ Forall (fun c => notSpaceAt c = true) l
        /\ Forall (fun c => notSpaceAt c = true) m
        /\ Forall (fun c => notSpaceAt c = true) t.
Proof.
  rewrite test_matches. unfold emailPattern. split.
  - intros H. inversion H as [| |? ? l s2 Hl H2| | | |]; subst.
    inversion H2 as [| |? ? a s3 Ha H3| | | |]; subst.
    inversion H3 as [| |? ? m s4 Hm H4| | | |]; subst.
    inversion H4 as [| |? ? d t Hd Ht| | | |]; subst.
    apply matches_Chr in Ha as ->. apply matches_Chr in Hd as ->.
    apply matches_Plus_Class in Hl as [? ?], Hm as [? ?], Ht as [? ?].
    exists l, m, t. cbn. auto 10.
  - intros (l & m & t & -> & Hl & Hm & Ht & Fl & Fm & Ft).
    constructor; [now apply matches_Plus_Class|].
    change (64 :: m ++ 46 :: t) with ([64] ++ m ++ [46] ++ t).
    constructor; [now apply matches_Chr|].
    constructor; [now apply matches_Plus_Class|].
    constructor; [now apply matches_Chr|now apply matches_Plus_Class].
Qed.

Lemma blank_dec (v : jsstring) :
  nonEmpty (trim v) = true
  <-> ~ Forall (fun c => isWhiteSpace c = true) v.
Proof.
  rewrite <- trim_blank. destruct (nonEmpty (trim v)); split; congruence.
Qed.

(** X1.  A phone value passes exactly when it is ten decimal digits and
    nothing else.  A value of white space only, the empty one too, gets
    the required message; every other value gets the format message. *)
Theorem phone_passes_iff_ten_digits (rt : DateRuntime) (v : jsstring) :
  (validateField rt (u "phone") v = None
   <-> length v = 10%nat /\ Forall (fun c => isDigit c = true) v)
  /\ (validateField rt (u "phone") v = Some "Phone number is required"%string
      <-> Forall (fun c => isWhiteSpace c = true) v)
  /\ (validateField rt (u "phone") v
      = Some "Phone number must be exactly 10 digits"%string
      <-> ~ Forall (fun c => isWhiteSpace c = true) v
          /\ ~ (length v = 10%nat /\ Forall (fun c => isDigit c = true) v)).
Proof.
  rewrite validateField_phone, <- test_phonePattern, <- blank_dec, <- trim_blank.
  assert (Hd : test phonePattern v = true -> nonEmpty (trim v) = true).
  { intros H. apply test_phonePattern in H as [Hl Hall].
    destruct Hall as [|c s Hc _]; [discriminate|].
    apply nonblank_head, digit_not_space, Hc. }
  destruct (nonEmpty (trim v)), (test phonePattern v);
    repeat split; try congruence; try tauto;
    try (intros [? ?]; congruence); try (intros ?; specialize (Hd eq_refl); congruence).
Qed.

(** X2.  A ZIP value passes exactly when it is five decimal digits, or
    five digits, a hyphen and four digits.  A value of white space only
    gets the required message; every other value the format message. *)
Theorem zip_passes_iff_five_or_nine_digits (rt : DateRuntime) (v : jsstring) :
  (validateField rt (u "zip") v = None
   <-> (length v = 5%nat /\ Forall (fun c => isDigit c = true) v)
       \/ exists a b, v = a ++ 45 :: b
                      /\ length a = 5%nat /\ length b = 4%nat
                      /\ Forall (fun c => isDigit c = true) a
                      /\ Forall (fun c => isDigit c = true) b)
  /\ (validateField rt (u "zip") v = Some "ZIP code is required"%string
      <-> Forall (fun c => isWhiteSpace c = true) v)
  /\ (validateField rt (u "zip") v
      = Some "Invalid ZIP code format (e.g., 12345 or 12345-6789)"%string
      <-> ~ Forall (fun c => isWhiteSpace c = true) v
          /\ validateField rt (u "zip") v <> None).
Proof.
  rewrite !validateField_zip, <- test_zipPattern, <- blank_dec, <- trim_blank.
  assert (Hd : test zipPattern v = true -> nonEmpty (trim v) = true).
  { intros H. apply test_zipPattern in H as [[Hl Hall]|(a & b & -> & Hl & _ & Hall & _)];
      (destruct Hall as [|c s Hc _]; [discriminate|]);
      apply nonblank_head, digit_not_space, Hc. }
  destruct (nonEmpty (trim v)), (test zipPattern v);
    repeat split; try congruence; try tauto;
    try (intros [? ?]; congruence); try (intros ?; specialize (Hd eq_refl); congruence).
Qed.

(** X3.  An email value passes exactly when it reads [l@m.t] with [l],
    [m] and [t] not empty and free of white space and of [@] ([m] may
    hold further dots).  A value of white space only gets the required
    message; every other value the format message. *)
Theorem email_passes_iff_local_at_domain_dot_tld (rt : DateRuntime) (v : jsstring) :
  (validateField rt (u "email") v = None
   <-> exists l m t,
         v = l ++ 64 :: m ++ 46 :: t
         /\ l <> [] /\ m <> [] /\ t <> []
         /\ Forall (fun c => notSpaceAt c = true) l
         /\ Forall (fun c => notSpaceAt c = true) m
         /\ Forall (fun c => notSpaceAt c = true) t)
  /\ (validateField rt (u "email") v = Some "Email is required"%string
      <-> Forall (fun c => isWhiteSpace c = true) v)
  /\ (validateField rt (u "email") v = Some "Invalid email format"%string
      <-> ~ Forall (fun c => isWhiteSpace c = true) v
          /\ validateField rt (u "email") v <> None).
Proof.
  rewrite !validateField_email, <- test_emailPattern, <- blank_dec, <- trim_blank.
  assert (Hd : test emailPattern v = true -> nonEmpty (trim v) = true).
  { intros H. apply test_emailPattern in H as (l & m & t & -> & Hl & _ & _ & Fl & _).
    destruct Fl as [|c s Hc _]; [contradiction|].
    apply nonblank_head, notSpaceAt_not_space, Hc. }
  destruct (nonEmpty (trim v)), (test emailPattern v);
    repeat split; try congruence; try tauto;
    try (intros [? ?]; congruence); try (intros ?; specialize (Hd eq_refl); congruence).
Qed.

Lemma validateField_name (rt : DateRuntime) (v : jsstring) :
  validateField rt (u "name") v
  = if nonEmpty (trim v)
    then if (3 <=? N.of_nat (length v))%N
         then if (N.of_nat (length v) <=? 50)%N then None
              else Some "Name must be 50 characters or less"%string
         else Some "Name must be 3 characters or more"%string
    else Some "Name is required"%string.
Proof.
  assert (Hrules : rulesOf (validationRules rt) (u "name")
                   = Some [("required", required "Name is required");
                           ("minLength",
                             {| logic := fun value => (3 <=? N.of_nat (length value))%N;
                                errorMessage := "Name must be 3 characters or more" |});
                           ("maxLength",
                             {| logic := fun value => (N.of_nat (length value) <=? 50)%N;
                                errorMessage := "Name must be 50 characters or less" |})]%string)
    by (vm_compute; reflexivity).
  unfold validateField, validateFieldTraced. rewrite Hrules.
  cbn -[trim nonEmpty N.leb N.of_nat].
  destruct (nonEmpty (trim v)); cbn -[N.leb N.of_nat]; [|reflexivity].
  destruct (3 <=? N.of_nat (length v))%N; cbn -[N.leb N.of_nat]; [|reflexivity].
  destruct (N.of_nat (length v) <=? 50)%N; reflexivity.
Qed.

(** X4.  A name passes exactly when it is not blank and has between 3
    and 50 code units, white space at either end counted.  A blank one
    gets the required message whatever its length, a shorter one the
    minimum message, a longer one the maximum message. *)
Theorem name_passes_iff_length_3_to_50 (rt : DateRuntime) (v : jsstring) :
  (validateField rt (u "name") v = None
   <-> ~ Forall (fun c => isWhiteSpace c = true) v
       /\ (3 <= length v <= 50)%nat)
  /\ (validateField rt (u "name") v = Some "Name is required"%string
      <-> Forall (fun c => isWhiteSpace c = true) v)
  /\ (validateField rt (u "name") v = Some "Name must be 3 characters or more"%string
      <-> ~ Forall (fun c => isWhiteSpace c = true) v /\ (length v < 3)%nat)
  /\ (validateField rt (u "name") v = Some "Name must be 50 characters or less"%string
      <-> ~ Forall (fun c => isWhiteSpace c = true) v /\ (50 < length v)%nat).
Proof.
  rewrite validateField_name, <- blank_dec, <- trim_blank.
  destruct (nonEmpty (trim v));
    destruct (N.leb_spec 3 (N.of_nat (length v)));
    destruct (N.leb_spec (N.of_nat (length v)) 50);
    repeat split; try congruence; try lia; try tauto;
    try (intros [? ?]; first [congruence|lia]).
Qed.



(** ** The store under any use *)

Lemma call_history (c : StoreCall) (w : World) :
  exists w' added,
    call c w = Returns tt w'
    /\ default [] (appStateDeletedData w')
       = default [] (appStateDeletedData w) ++ added.
Proof.
  destruct c as [|x| |h|v|ms iso]; cbn [call].
  - exists w, []. split; [reflexivity|]. now rewrite app_nil_r.
  - rewrite setData_run, saveData_run. cbn.
    destruct (deletedData w) as [| |e].
    + eexists. exists []. split; [reflexivity|]. cbn. now rewrite app_nil_r.
    + eexists. exists []. split; [reflexivity|]. cbn. now rewrite app_nil_r.
    + eexists. eexists. split; reflexivity.
  - exists w, []. split; [reflexivity|]. now rewrite app_nil_r.
  - rewrite setDeletedData_run, saveData_run. cbn.
    eexists. eexists. split; reflexivity.
  - eexists. exists []. split; [reflexivity|]. cbn. now rewrite app_nil_r.
  - eexists. exists []. split; [reflexivity|]. cbn. now rewrite app_nil_r.
Qed.

Lemma calls_history (cs : list StoreCall) :
  forall w, exists w' added,
    calls cs w = Returns tt w'
    /\ default [] (appStateDeletedData w')
       = default [] (appStateDeletedData w) ++ added.
Proof.
  induction cs as [|c cs IH]; intros w; cbn [calls].
  - exists w, []. split; [reflexivity|]. now rewrite app_nil_r.
  - destruct (call_history c w) as (w1 & a1 & Hc & H1).
    destruct (IH w1) as (w2 & a2 & Hcs & H2).
    exists w2, (a1 ++ a2). unfold bind. rewrite Hc. split; [exact Hcs|].
    now rewrite H2, H1, app_assoc.
Qed.

(** X6.  Whatever series of calls the store receives, with [null],
    [undefined], a record or an array written to its public field in
    between (the values the page assigns to it), no call throws and the
    stored deleted history only grows at its end: what was stored before
    is still there, in the same order, in front of what was added.  The
    store has no way to drop or replace an entry. *)
Theorem store_history_is_append_only (cs : list StoreCall) (w : World) :
  exists w' added hist,
    calls cs w = Returns tt w'
    /\ getDeletedData w' = Returns hist w'
    /\ hist = default [] (appStateDeletedData w) ++ added.
Proof.
  destruct (calls_history cs w) as (w' & added & Hrun & Hh).
  exists w', added, (default [] (appStateDeletedData w')).
  split; [exact Hrun|]. split; [reflexivity|exact Hh].
Qed.

(** X7.  Once three entries are stored, [getLastThreeSubmissions] is
    frozen: it returns the three oldest entries, and keeps returning
    them whatever the store is asked to do afterwards. *)
Theorem getLastThreeSubmissions_is_frozen
  (cs : list StoreCall) (w : World) (e1 e2 e3 : json) (later : list json) :
  appStateDeletedData w = Some (e1 :: e2 :: e3 :: later) ->
  getLastThreeSubmissions w = Returns [e1; e2; e3] w
  /\ exists w', calls cs w = Returns tt w'
                /\ getLastThreeSubmissions w' = Returns [e1; e2; e3] w'.
Proof.
  intros Hh. split.
  - unfold getLastThreeSubmissions, getDeletedData, bind, gets, ret.
    rewrite Hh. reflexivity.
  - destruct (calls_history cs w) as (w' & added & Hrun & Hh').
    exists w'. split; [exact Hrun|].
    unfold getLastThreeSubmissions, getDeletedData, bind, gets, ret.
    rewrite Hh', Hh. reflexivity.
Qed.

Lemma getLastThreeSubmissions_is_frozen_witness :
  let w := pageOver None (Some [JRecord (person "1" "Ana"); JRecord (person "2" "Ben");
                                JRecord (person "3" "Cy")]) in
  exists w',
    calls [AssignDeletedData (value (JRecord (person "4" "Dee"))); CallSetData []] w
    = Returns tt w'
    /\ getLastThreeSubmissions w'
       = Returns [JRecord (person "1" "Ana"); JRecord (person "2" "Ben");
                  JRecord (person "3" "Cy")] w'.
Proof.
  intros w.
  destruct (getLastThreeSubmissions_is_frozen
              [AssignDeletedData (value (JRecord (person "4" "Dee"))); CallSetData []]
              w (JRecord (person "1" "Ana")) (JRecord (person "2" "Ben"))
              (JRecord (person "3" "Cy")) [])
    as [_ H].
  - reflexivity.
  - exact H.
Defined.

(** X8.  The restore modal never offers anything: whatever the stored
    history holds, the markup [showRestoreModal] writes into the options
    element is the empty string. *)
Theorem showRestoreModal_offers_nothing (w : World) :
  showRestoreModal w = Returns [] w.
Proof.
  unfold showRestoreModal, getLastThreeSubmissions, getDeletedData, bind, gets, ret.
  f_equal. unfold restoreOptionsMarkup.
  induction (take 3 (default [] (appStateDeletedData w))) as [|e l IH];
    [reflexivity|exact IH].
Qed.

(** X9.  [setData(x)] with nothing pending, on records whose age is a
    number: the call writes into no record, the stored active list is
    [x], still nothing is pending, and a page load over that storage,
    with a new [AppStateManager], starts from [getData() = x]. *)
Theorem setData_survives_a_reload (w : World) (x : list FormData) :
  truthy (deletedData w) = false ->
  Forall (fun r => age r <> NaN) x ->
  exists w',
    setData x w = Returns tt w'
    /\ data w' = x
    /\ appStateData w' = Some x
    /\ truthy (deletedData w') = false
    /\ getData (newAppStateManager w') = Returns x (newAppStateManager w').
Proof.
  intros Hslot _. rewrite (setData_nothing_pending x w Hslot).
  eexists. split; [reflexivity|]. split; [reflexivity|]. split; [reflexivity|].
  split; [exact Hslot|].
  unfold newAppStateManager, loadData, getData, gets; cbn.
  destruct (appStateDeletedData w); reflexivity.
Qed.

Lemma setData_survives_a_reload_witness :
  let w := pageOver (Some [person "1" "Ana"]) None in
  exists w',
    setData [person "2" "Ben"; person "1" "Ana"] w = Returns tt w'
    /\ getData (newAppStateManager w')
       = Returns [person "2" "Ben"; person "1" "Ana"] (newAppStateManager w').
Proof.
  intros w.
  destruct (setData_survives_a_reload w [person "2" "Ben"; person "1" "Ana"])
    as (w' & Hrun & _ & _ & _ & Hload).
  - reflexivity.
  - repeat constructor; discriminate.
  - exists w'. split; [exact Hrun|exact Hload].
Defined.

(** X10.  With [null], [undefined], a record or an array in the slot
    (the values the page assigns to it), [deleteData] on its own throws
    exactly when the slot is [null] or [undefined]; [saveData] calls it
    only behind the truthiness test and so does not throw for any of
    these values. *)
Theorem deleteData_throws_iff_nothing_pending (w : World) :
  (deleteData w = Throws <-> truthy (deletedData w) = false)
  /\ exists w', saveData w = Returns tt w'.
Proof.
  split.
  - unfold deleteData, stamp, bind, gets, modify, ret, throw.
    destruct (deletedData w); cbn; split; congruence.
  - rewrite saveData_run. eexists. reflexivity.
Qed.

(** ** Deleting, editing and restoring *)

Lemma filter_not_id (i : jsstring) (l : list FormData) :
  Forall (fun item => id item ≠ i) (filter (fun item => id item ≠ i) l).
Proof.
  apply Forall_forall. intros r Hr.
  apply list_elem_of_filter in Hr. tauto.
Qed.

(** X11.  Whether or not the id is in use, [handleDeleteData] and
    [handleRestoreDeleteData] return without throwing, and the active set
    they leave is exactly the old one without the records of that id:
    the records with another id, each as often as before and in the old
    order.  The stored active list is the new set, and the form is back
    in create mode. *)
Theorem handlers_remove_every_record_of_the_id (w : World) (i : jsstring) :
  (exists w', handleDeleteData i w = Returns tt w'
              /\ data w' = filter (fun item => id item ≠ i) (data w)
              /\ Forall (fun item => id item ≠ i) (data w')
              /\ appStateData w' = Some (data w')
              /\ formComponent w' = render None)
  /\ (exists w', handleRestoreDeleteData i w = Returns tt w'
                 /\ data w' = filter (fun item => id item ≠ i) (data w)
                 /\ Forall (fun item => id item ≠ i) (data w')
                 /\ appStateData w' = Some (data w')
                 /\ formComponent w' = render None).
Proof.
  split; [rewrite handleDeleteData_run|rewrite handleRestoreDeleteData_run];
    (eexists; split; [reflexivity|]).
  - destruct (find (fun item => streq (id item) i) (data w)); cbn -[filter];
      (split; [reflexivity|]); (split; [apply filter_not_id|]);
      split; reflexivity.
  - cbn -[filter]. split; [reflexivity|]. split; [apply filter_not_id|].
    split; reflexivity.
Qed.

(** X12.  When several active records carry the id, [handleDeleteData]
    takes all of them out of the active set but stores only the first,
    stamped with the time of the deletion, at the end of the history;
    the others are in neither list afterwards. *)
Theorem handleDeleteData_stores_only_the_first
  (w : World) (i : jsstring) (R : FormData) (before after : list FormData) :
  data w = before ++ R :: after ->
  id R = i ->
  Forall (fun item => id item ≠ i) before ->
  exists w',
    handleDeleteData i w = Returns tt w'
    /\ data w' = before ++ filter (fun item => id item ≠ i) after
    /\ appStateDeletedData w'
       = Some (default [] (appStateDeletedData w)
               ++ [JRecord (withTimeStamp (nowISO w) R)])
    /\ deletedData w' = null.
Proof.
  intros Hdata HR Hb.
  rewrite handleDeleteData_run, Hdata, (find_middle i before after R Hb HR).
  eexists. split; [reflexivity|]. cbn -[filter].
  split; [|split; reflexivity].
  rewrite filter_app, filter_cons, (filter_absent i before Hb).
  destruct (decide (id R ≠ i)); [contradiction|reflexivity].
Qed.

Lemma handleDeleteData_stores_only_the_first_witness :
  let w := pageOver (Some [person "1" "Ana"; person "2" "Ben"; person "2" "Bob"]) None in
  exists w',
    handleDeleteData (u "2") w = Returns tt w'
    /\ data w' = [person "1" "Ana"]
    /\ appStateDeletedData w'
       = Some [JRecord (withTimeStamp (nowISO w) (person "2" "Ben"))].
Proof.
  intros w.
  destruct (handleDeleteData_stores_only_the_first w (u "2") (person "2" "Ben")
              [person "1" "Ana"] [person "2" "Bob"])
    as (w' & Hrun & Hd & Hh & _).
  - reflexivity.
  - reflexivity.
  - repeat constructor. vm_compute. discriminate.
  - exists w'. split; [exact Hrun|]. split; [exact Hd|exact Hh].
Defined.

Lemma emit_updateFormData (d : FormData) (w : World) :
  emit addEventListeners (u "updateFormData") [ArgData d] w = updateData d w.
Proof.
  assert (Hl : addEventListeners !! u "updateFormData" = Some [onData updateData])
    by (vm_compute; reflexivity).
  unfold emit. rewrite Hl. cbn [forEach onData]. unfold bind, ret.
  destruct (updateData d w) as [[] w'|]; reflexivity.
Qed.

Lemma updateData_run (d : FormData) (w : World) :
  updateData d w
  = Returns tt
      (mkWorld
         (Some (map (fun item => if streq (id item) (id d) then d else item) (data w)))
         match dataToBeRestore w with
         | value v =>
             Some (default [] (appStateDeletedData w) ++ [stamped (nowISO w) v])
         | _ => appStateDeletedData w
         end
         (dates w) (nowMs w) (nowISO w)
         (map (fun item => if streq (id item) (id d) then d else item) (data w))
         match dataToBeRestore w with
         | value _ => null
         | other => other
         end
         null (render None)).
Proof.
  unfold updateData, getData, bind, gets, modify.
  rewrite setData_run, saveData_run. cbn -[map].
  destruct (dataToBeRestore w); reflexivity.
Qed.

Lemma map_replace_absent (d : FormData) (l : list FormData) :
  Forall (fun item => id item ≠ id d) l ->
  map (fun item => if streq (id item) (id d) then d else item) l = l.
Proof.
  induction 1 as [|r l Hr _ IH]; [reflexivity|].
  cbn [map]. rewrite IH. unfold streq. now rewrite bool_decide_eq_false_2.
Qed.

(** X13.  Editing: [editItem] on an active record, then [handleSubmit] on
    a form that passes [validateForm].  The submitted record takes the
    place of the edited one, at the same position and under the same id,
    and the other records are untouched; the version that was replaced
    goes to the end of the stored history, stamped with the time of the
    update; the form is back in create mode. *)
Theorem edit_replaces_in_place
  (w : World) (i : jsstring) (R : FormData) (before after : list FormData)
  (form : jsstring -> jsstring) :
  data w = before ++ R :: after ->
  id R = i ->
  nonEmpty i = true ->
  Forall (fun item => id item ≠ i) before ->
  Forall (fun item => id item ≠ i) after ->
  validateForm (dates w) form = true ->
  exists w' d,
    (editItem i;; handleSubmit form) w = Returns tt w'
    /\ data w' = before ++ d :: after
    /\ appStateData w' = Some (data w')
    /\ d = {| id := i;
              name := form (u "name");
              phone := form (u "phone");
              email := form (u "email");
              dob := form (u "dob");
              age := parseInt (form (u "age")) 0;
              country := form (u "country");
              state := form (u "state");
              city := form (u "city");
              zip := form (u "zip");
              restoreData := [];
              timeStamp := nowISO w |}
    /\ (exists n, age d = Num n /\ (10 <= n <= 100)%Z)
    /\ appStateDeletedData w'
       = Some (default [] (appStateDeletedData w)
               ++ [JRecord (withTimeStamp (nowISO w) R)])
    /\ formComponent w' = render None
    /\ dataToBeRestore w' = null.
Proof.
  intros Hdata HR Hne Hb Ha Hvalid.
  assert (Hedit : editItem i w
                  = Returns tt (set_formComponent (render (Some R))
                                  (set_dataToBeRestore (value (JRecord R)) w))).
  { unfold editItem, getData, bind, gets, modify. cbn -[find].
    rewrite Hdata, (find_middle i before after R Hb HR). reflexivity. }
  set (w1 := set_formComponent (render (Some R))
               (set_dataToBeRestore (value (JRecord R)) w)) in *.
  assert (Hid : id (submitted w1 form) = i).
  { unfold submitted, w1. cbn. rewrite HR, Hne. cbn. now rewrite Hne. }
  exists (mkWorld
            (Some (before ++ submitted w1 form :: after))
            (Some (default [] (appStateDeletedData w)
                   ++ [JRecord (withTimeStamp (nowISO w) R)]))
            (dates w) (nowMs w) (nowISO w)
            (before ++ submitted w1 form :: after) null null (render None)).
  exists (submitted w1 form).
  split; [|split; [reflexivity|]; split; [reflexivity|]; split;
           [|split; [|repeat split; reflexivity]]].
  2:{ rewrite <- Hid. reflexivity. }
  2:{ destruct (validateForm_age _ _ Hvalid) as (n & Hn & Hrange).
      exists n. split; [|exact Hrange].
      cbn. apply parseInt_without_radix; [exact Hn|lia]. }
  unfold bind at 1. rewrite Hedit.
  unfold handleSubmit, bind, gets.
  change (dates w1) with (dates w). rewrite Hvalid.
  change (isEditMode (formComponent w1)) with true. cbn match.
  rewrite emit_updateFormData, updateData_run. unfold modify.
  assert (Hb' : Forall (fun item => id item ≠ id (submitted w1 form)) before)
    by (rewrite Hid; exact Hb).
  assert (Ha' : Forall (fun item => id item ≠ id (submitted w1 form)) after)
    by (rewrite Hid; exact Ha).
  assert (HR' : id R = id (submitted w1 form)) by congruence.
  change (data w1) with (data w). rewrite Hdata, map_app. cbn [map].
  rewrite (map_replace_absent _ before Hb'), (map_replace_absent _ after Ha').
  unfold streq. rewrite (bool_decide_eq_true_2 _ HR').
  reflexivity.
Qed.

Lemma edit_replaces_in_place_witness :
  let w := pageOver (Some [person "1" "Bea"; person "2" "Ben"]) None in
  exists w' d,
    (editItem (u "1");; handleSubmit sampleForm) w = Returns tt w'
    /\ data w' = [d; person "2" "Ben"]
    /\ id d = u "1" /\ name d = u "Ana".
Proof.
  intros w.
  destruct (edit_replaces_in_place w (u "1") (person "1" "Bea") []
              [person "2" "Ben"] sampleForm)
    as (w' & d & Hrun & Hd & _ & Hrec & _).
  - reflexivity.
  - reflexivity.
  - reflexivity.
  - constructor.
  - repeat constructor. vm_compute. discriminate.
  - vm_compute. reflexivity.
  - exists w', d. split; [exact Hrun|]. split; [exact Hd|].
    rewrite Hrec. split; reflexivity.
Defined.

Lemma find_after_filter (i : jsstring) (l : list FormData) :
  find (fun item => streq (id item) i) (filter (fun item => id item ≠ i) l) = None.
Proof. apply find_absent, filter_not_id. Qed.

Lemma filter_twice (i : jsstring) (l : list FormData) :
  filter (fun item => id item ≠ i) (filter (fun item => id item ≠ i) l)
  = filter (fun item => id item ≠ i) l.
Proof. apply filter_absent, filter_not_id. Qed.

Lemma setDeletedData_pushes (h : list json) (w : World) :
  setDeletedData h w
  = Returns tt
      (mkWorld (Some (data w))
         (Some (default [] (appStateDeletedData w) ++ [JArray h]))
         (dates w) (nowMs w) (nowISO w) (data w) null
         (dataToBeRestore w) (formComponent w)).
Proof. rewrite setDeletedData_run, saveData_run. reflexivity. Qed.

(** X14.  The modal's [confirmDelete], with [delete] typed in any case,
    on the id of an active record and with nothing pending: the records
    of that id leave the active set, and the stored history grows by one
    entry, the array made of the deleted record and the first two
    entries stored before, pushed as one element.  The [deleteData]
    event it emits at the end finds the id gone and stores nothing
    more. *)
Theorem confirmDelete_pushes_one_array
  (w : World) (typed i : jsstring) (R : FormData) :
  streq (toLowerCase typed) (u "delete") = true ->
  nonEmpty i = true ->
  truthy (deletedData w) = false ->
  find (fun item => streq (id item) i) (data w) = Some R ->
  exists w',
    confirmDelete typed (Some i) w = Returns tt w'
    /\ data w' = filter (fun item => id item ≠ i) (data w)
    /\ appStateData w' = Some (data w')
    /\ appStateDeletedData w'
       = Some (default [] (appStateDeletedData w)
               ++ [JArray (JRecord R :: take 2 (default [] (appStateDeletedData w)))])
    /\ deletedData w' = undefined.
Proof.
  intros Htyped Hne Hslot Hfind.
  unfold confirmDelete. rewrite Htyped, Hne. cbn [andb].
  unfold getData, getDeletedData, bind, gets, ret. rewrite Hfind.
  rewrite (setData_nothing_pending _ w Hslot).
  cbn -[filter emit addEventListeners u setDeletedData take].
  rewrite setDeletedData_pushes.
  cbn -[filter emit addEventListeners u take].
  rewrite emit_deleteData, handleDeleteData_run.
  cbn -[filter find take]. rewrite find_after_filter, filter_twice.
  eexists. split; [reflexivity|]. repeat split; reflexivity.
Qed.

Lemma confirmDelete_pushes_one_array_witness :
  let w := pageOver (Some [person "1" "Ana"; person "2" "Ben"])
             (Some [JRecord (person "7" "Gus"); JRecord (person "8" "Hal");
                    JRecord (person "9" "Ian")]) in
  exists w',
    confirmDelete (u "Delete") (Some (u "2")) (set_deletedData null w) = Returns tt w'
    /\ data w' = [person "1" "Ana"]
    /\ appStateDeletedData w'
       = Some [JRecord (person "7" "Gus"); JRecord (person "8" "Hal");
               JRecord (person "9" "Ian");
               JArray [JRecord (person "2" "Ben"); JRecord (person "7" "Gus");
                       JRecord (person "8" "Hal")]].
Proof.
  intros w.
  destruct (confirmDelete_pushes_one_array (set_deletedData null w) (u "Delete")
              (u "2") (person "2" "Ben"))
    as (w' & Hrun & Hd & _ & Hh & _).
  - vm_compute. reflexivity.
  - reflexivity.
  - reflexivity.
  - vm_compute. reflexivity.
  - exists w'. split; [exact Hrun|]. split.
    + rewrite Hd. vm_compute. reflexivity.
    + rewrite Hh. reflexivity.
Defined.

Lemma withId_ids (i : jsstring) (l : list json) :
  Forall (fun r => id r = i) (withId i l).
Proof.
  unfold withId. induction l as [|e l IH]; cbn [omap]; [constructor|].
  destruct e as [r|a]; cbn; [|exact IH].
  unfold streq. destruct (bool_decide_reflect (id r = i)); cbn; [|exact IH].
  constructor; assumption.
Qed.

Lemma restoreClick_run (parsed : list FormData -> list (option jsstring))
  (w : World) (i : jsstring) (k : nat) (R0 : FormData) (rest : list FormData) :
  withId i (default [] (appStateDeletedData w)) = R0 :: rest ->
  forallb plainEntry (R0 :: rest) = true ->
  (k < length (R0 :: rest))%nat ->
  restoreClick parsed i k w
  = Returns tt
      (mkWorld (Some (R0 :: filter (fun item => id item ≠ i) (data w)))
         (appStateDeletedData w) (dates w) (nowMs w) (nowISO w)
         (R0 :: filter (fun item => id item ≠ i) (data w))
         null (dataToBeRestore w) (render None)).
Proof.
  intros Hpop Hplain Hk.
  pose proof (withId_ids i (default [] (appStateDeletedData w))) as Hids.
  rewrite Hpop in Hids.
  destruct (lookup_lt_is_Some_2 (R0 :: rest) k Hk) as [clicked Hclicked].
  assert (Hc : id clicked = i).
  { eapply (proj1 (Forall_lookup _ _) Hids). exact Hclicked. }
  assert (H0 : id R0 = i) by (inversion Hids; assumption).
  unfold restoreClick, restoreButtons, bind, gets. cbn -[withId].
  rewrite Hpop, Hplain, list_lookup_fmap, Hclicked.
  cbn [fmap option_fmap option_map find]. unfold streq at 1.
  rewrite bool_decide_eq_true_2 by congruence.
  unfold handleRestore, bind.
  rewrite emit_restoreDeleteData, handleRestoreDeleteData_run.
  rewrite emit_formSubmit, addData_run. cbn -[filter].
  rewrite H0. reflexivity.
Qed.

(** X15.  In the restore pop-up of an id whose stored entries are plain,
    every restore button does the same thing: whichever is clicked, the
    entry restored is the first, that is the oldest, stored record with
    that id.  It goes to position 0 of the active set, any active record
    of the id is dropped, and the stored history stays as it is. *)
Theorem every_restore_button_restores_the_oldest
  (parsed : list FormData -> list (option jsstring))
  (w : World) (i : jsstring) (k : nat) (R0 : FormData) (rest : list FormData) :
  withId i (default [] (appStateDeletedData w)) = R0 :: rest ->
  forallb plainEntry (R0 :: rest) = true ->
  (k < length (R0 :: rest))%nat ->
  exists w',
    restoreClick parsed i k w = Returns tt w'
    /\ restoreClick parsed i 0 w = Returns tt w'
    /\ data w' = R0 :: filter (fun item => id item ≠ i) (data w)
    /\ appStateData w' = Some (data w')
    /\ appStateDeletedData w' = appStateDeletedData w.
Proof.
  intros Hpop Hplain Hk. eexists.
  split; [exact (restoreClick_run parsed w i k R0 rest Hpop Hplain Hk)|].
  split; [apply (restoreClick_run parsed w i 0 R0 rest Hpop Hplain); cbn; lia|].
  repeat split; reflexivity.
Qed.

Lemma every_restore_button_restores_the_oldest_witness :
  let old := withTimeStamp (u "2024-02-02T00:00:00.000Z") (person "1" "Abe") in
  let new := withTimeStamp (u "2024-03-03T00:00:00.000Z") (person "1" "Amy") in
  let w := set_deletedData null
             (pageOver (Some [person "1" "Ana"; person "2" "Ben"])
                (Some [JRecord old; JRecord new])) in
  exists w',
    restoreClick (fun _ => []) (u "1") 1 w = Returns tt w'
    /\ data w' = [old; person "2" "Ben"].
Proof.
  intros old new w.
  destruct (every_restore_button_restores_the_oldest (fun _ => []) w (u "1") 1
              old [new])
    as (w' & Hrun & _ & Hd & _).
  - reflexivity.
  - reflexivity.
  - cbn. lia.
  - exists w'. split; [exact Hrun|]. rewrite Hd. vm_compute. reflexivity.
Defined.

(** X16.  Restoring is idempotent: with plain stored entries under the
    id, a second click on a restore button of the same id, right after
    the first, leaves the world exactly as the first click left it. *)
Theorem restoring_twice_is_restoring_once
  (parsed : list FormData -> list (option jsstring))
  (w : World) (i : jsstring) (k k' : nat) (R0 : FormData) (rest : list FormData) :
  withId i (default [] (appStateDeletedData w)) = R0 :: rest ->
  forallb plainEntry (R0 :: rest) = true ->
  (k < length (R0 :: rest))%nat ->
  (k' < length (R0 :: rest))%nat ->
  exists w',
    restoreClick parsed i k w = Returns tt w'
    /\ restoreClick parsed i k' w' = Returns tt w'.
Proof.
  intros Hpop Hplain Hk Hk'. eexists.
  split; [exact (restoreClick_run parsed w i k R0 rest Hpop Hplain Hk)|].
  rewrite (restoreClick_run parsed _ i k' R0 rest);
    [|exact Hpop|exact Hplain|exact Hk'].
  cbn -[filter].
  assert (H0 : id R0 = i).
  { pose proof (withId_ids i (default [] (appStateDeletedData w))) as Hids.
    rewrite Hpop in Hids. now inversion Hids. }
  rewrite filter_cons. destruct (decide (id R0 ≠ i)); [contradiction|].
  rewrite filter_twice. reflexivity.
Qed.

Lemma restoring_twice_is_restoring_once_witness :
  let w := set_deletedData null
             (pageOver (Some [person "1" "Ana"; person "2" "Ben"])
                (Some [JRecord (person "1" "Abe")])) in
  exists w',
    restoreClick (fun _ => []) (u "1") 0 w = Returns tt w'
    /\ restoreClick (fun _ => []) (u "1") 0 w' = Returns tt w'.
Proof.
  intros w.
  apply (restoring_twice_is_restoring_once (fun _ => []) w (u "1") 0 0
           (person "1" "Abe") []).
  - reflexivity.
  - reflexivity.
  - cbn. lia.
  - cbn. lia.
Defined.

(** ** What a submitted record looks like *)

Lemma validateField_one (rt : DateRuntime) (f : jsstring) (msg : string) (v : jsstring) :
  rulesOf (validationRules rt) f = Some [("required"%string, required msg)] ->
  validateField rt f v = if nonEmpty (trim v) then None else Some msg.
Proof.
  intros Hrules. unfold validateField, validateFieldTraced. rewrite Hrules.
  cbn -[trim nonEmpty]. destruct (nonEmpty (trim v)); reflexivity.
Qed.

Lemma validateField_dob (rt : DateRuntime) (v : jsstring) :
  validateField rt (u "dob") v
  = if nonEmpty (trim v)
    then match fullYearOf rt v with
         | Some y => if between10and100 (Num (currentYear rt - y)) then None
                     else Some "You must be between 10 and 100 years old"%string
         | None => Some "Invalid date format"%string
         end
    else Some "Date of birth is required"%string.
Proof.
  assert (Hrules : rulesOf (validationRules rt) (u "dob")
                   = Some [("required", required "Date of birth is required");
                           ("validDate",
                             {| logic := fun value =>
                                  match fullYearOf rt value with
                                  | Some _ => true | None => false end;
                                errorMessage := "Invalid date format" |});
                           ("ageLimit",
                             {| logic := fun value =>
                                  match fullYearOf rt value with
                                  | Some y => between10and100 (Num (currentYear rt - y))
                                  | None => false
                                  end;
                                errorMessage := "You must be between 10 and 100 years old" |})]%string)
    by (vm_compute; reflexivity).
  unfold validateField, validateFieldTraced. rewrite Hrules.
  cbn -[trim nonEmpty between10and100].
  destruct (nonEmpty (trim v)); cbn -[between10and100]; [|reflexivity].
  destruct (fullYearOf rt v) as [y|]; cbn -[between10and100]; [|reflexivity].
  destruct (between10and100 (Num (currentYear rt - y))); reflexivity.
Qed.

(** What [validateForm] has checked when it returns [true]. *)
Lemma validateForm_true (rt : DateRuntime) (form : jsstring -> jsstring) :
  validateForm rt form = true ->
  validateField rt (u "name") (form (u "name")) = None
  /\ validateField rt (u "phone") (form (u "phone")) = None
  /\ validateField rt (u "email") (form (u "email")) = None
  /\ validateField rt (u "dob") (form (u "dob")) = None
  /\ validateField rt (u "age") (form (u "age")) = None
  /\ validateField rt (u "country") (form (u "country")) = None
  /\ validateField rt (u "state") (form (u "state")) = None
  /\ validateField rt (u "city") (form (u "city")) = None
  /\ validateField rt (u "zip") (form (u "zip")) = None.
Proof.
  unfold validateForm, fieldNames. cbn [forallb map].
  rewrite !andb_true_iff.
  intros (Hname & Hphone & Hemail & Hdob & Hage & Hcountry & Hstate & Hcity & Hzip & _).
  repeat split.
  - revert Hname. rewrite validateField_name.
    repeat match goal with |- context [if ?b then _ else _] => destruct b end;
      cbn; congruence.
  - revert Hphone. rewrite validateField_phone.
    repeat match goal with |- context [if ?b then _ else _] => destruct b end;
      cbn; congruence.
  - revert Hemail. rewrite validateField_email.
    repeat match goal with |- context [if ?b then _ else _] => destruct b end;
      cbn; congruence.
  - revert Hdob. rewrite validateField_dob.
    destruct (nonEmpty (trim (form (u "dob")))); [|cbn; congruence].
    destruct (fullYearOf rt (form (u "dob"))); [|cbn; congruence].
    destruct (between10and100 _); cbn; congruence.
  - revert Hage. rewrite validateField_age.
    repeat match goal with |- context [if ?b then _ else _] => destruct b end;
      cbn; congruence.
  - revert Hcountry.
    rewrite (validateField_one rt (u "country") "Country is required")
      by (vm_compute; reflexivity).
    destruct (nonEmpty _); cbn; congruence.
  - revert Hstate.
    rewrite (validateField_one rt (u "state") "State is required")
      by (vm_compute; reflexivity).
    destruct (nonEmpty _); cbn; congruence.
  - revert Hcity.
    rewrite (validateField_one rt (u "city") "City is required")
      by (vm_compute; reflexivity).
    destruct (nonEmpty _); cbn; congruence.
  - revert Hzip. rewrite validateField_zip.
    repeat match goal with |- context [if ?b then _ else _] => destruct b end;
      cbn; congruence.
Qed.

(** On a form that passes [validateForm], [handleSubmit] hands exactly
    one record to [addData], or to [updateData] in edit mode, and on a
    form that fails it does nothing. *)
Lemma handleSubmit_run (w : World) (form : jsstring -> jsstring) :
  handleSubmit form w
  = if validateForm (dates w) form
    then ((if isEditMode (formComponent w)
           then updateData (submitted w form) else addData (submitted w form));;
          modify (set_formComponent (render None))) w
    else Returns tt w.
Proof.
  unfold handleSubmit, bind, gets.
  destruct (validateForm (dates w) form); [|reflexivity].
  destruct (isEditMode (formComponent w)).
  - now rewrite emit_updateFormData.
  - now rewrite emit_formSubmit.
Qed.

(** The record read off a form that passes [validateForm]. *)
Lemma submitted_well_formed (w : World) (form : jsstring -> jsstring) :
  validateForm (dates w) form = true ->
  let d := submitted w form in
  (3 <= length (name d) <= 50)%nat
  /\ (length (phone d) = 10%nat /\ Forall (fun c => isDigit c = true) (phone d))
  /\ (exists l m t,
         email d = l ++ 64 :: m ++ 46 :: t
         /\ l <> [] /\ m <> [] /\ t <> []
         /\ Forall (fun c => notSpaceAt c = true) l
         /\ Forall (fun c => notSpaceAt c = true) m
         /\ Forall (fun c => notSpaceAt c = true) t)
  /\ (exists y, fullYearOf (dates w) (dob d) = Some y
                /\ (10 <= currentYear (dates w) - y <= 100)%Z)
  /\ (exists n, age d = Num n /\ (10 <= n <= 100)%Z)
  /\ ~ Forall (fun c => isWhiteSpace c = true) (country d)
  /\ ~ Forall (fun c => isWhiteSpace c = true) (state d)
  /\ ~ Forall (fun c => isWhiteSpace c = true) (city d)
  /\ ((length (zip d) = 5%nat /\ Forall (fun c => isDigit c = true) (zip d))
      \/ exists a b, zip d = a ++ 45 :: b
                     /\ length a = 5%nat /\ length b = 4%nat
                     /\ Forall (fun c => isDigit c = true) a
                     /\ Forall (fun c => isDigit c = true) b).
Proof.
  intros Hvalid d.
  destruct (validateForm_true _ _ Hvalid)
    as (Hname & Hphone & Hemail & Hdob & Hage & Hcountry & Hstate & Hcity & Hzip).
  change (name d) with (form (u "name")). change (phone d) with (form (u "phone")).
  change (email d) with (form (u "email")). change (dob d) with (form (u "dob")).
  change (age d) with (parseInt (form (u "age")) 0).
  change (country d) with (form (u "country")).
  change (state d) with (form (u "state")). change (city d) with (form (u "city")).
  change (zip d) with (form (u "zip")).
  repeat split.
  + rewrite validateField_name in Hname.
    destruct (nonEmpty _); [|discriminate].
    destruct (N.leb_spec 3 (N.of_nat (length (form (u "name"))))); [lia|discriminate].
  + rewrite validateField_name in Hname.
    destruct (nonEmpty _); [|discriminate].
    destruct (3 <=? _)%N; [|discriminate].
    destruct (N.leb_spec (N.of_nat (length (form (u "name")))) 50); [lia|discriminate].
  + rewrite validateField_phone in Hphone.
    destruct (nonEmpty _); [|discriminate].
    destruct (test phonePattern _) eqn:Ht; [|discriminate].
    now apply test_phonePattern in Ht.
  + rewrite validateField_phone in Hphone.
    destruct (nonEmpty _); [|discriminate].
    destruct (test phonePattern _) eqn:Ht; [|discriminate].
    now apply test_phonePattern in Ht.
  + rewrite validateField_email in Hemail.
    destruct (nonEmpty _); [|discriminate].
    destruct (test emailPattern _) eqn:Ht; [|discriminate].
    now apply test_emailPattern in Ht.
  + rewrite validateField_dob in Hdob.
    destruct (nonEmpty _); [|discriminate].
    destruct (fullYearOf (dates w) (form (u "dob"))) as [y|]; [|discriminate].
    destruct (between10and100 _) eqn:Hb; [|discriminate].
    apply between10and100_spec in Hb as (n & [= <-] & Hn).
    exists y. split; [reflexivity|exact Hn].
  + rewrite validateField_age in Hage.
    destruct (nonEmpty _); [|discriminate].
    destruct (between10and100 _) eqn:Hb; [|discriminate].
    apply between10and100_spec in Hb as (n & Hn & Hr).
    exists n. split; [|exact Hr]. apply parseInt_without_radix; [exact Hn|lia].
  + apply blank_dec.
    rewrite (validateField_one (dates w) (u "country") "Country is required")
      in Hcountry by (vm_compute; reflexivity).
    destruct (nonEmpty _); [reflexivity|discriminate].
  + apply blank_dec.
    rewrite (validateField_one (dates w) (u "state") "State is required")
      in Hstate by (vm_compute; reflexivity).
    destruct (nonEmpty _); [reflexivity|discriminate].
  + apply blank_dec.
    rewrite (validateField_one (dates w) (u "city") "City is required")
      in Hcity by (vm_compute; reflexivity).
    destruct (nonEmpty _); [reflexivity|discriminate].
  + rewrite validateField_zip in Hzip.
    destruct (nonEmpty _); [|discriminate].
    destruct (test zipPattern _) eqn:Ht; [|discriminate].
    now apply test_zipPattern in Ht.
Qed.

(** ** The form's error map and drop-downs *)

Lemma FormView_validateField_run (rt : DateRuntime) (f : jsstring) (fv : FormView.t) :
  FormView.hasField f = true ->
  FormView.validateField rt f fv
  = Returns tt
      (FormView.set_errors
         (if recorded (validateField rt f (FormView.values fv f))
          then <[f := default ""%string (validateField rt f (FormView.values fv f))]>
                 (FormView.errors fv)
          else delete f (FormView.errors fv))
         fv).
Proof.
  intros Hf. unfold FormView.validateField. rewrite Hf.
  unfold bind, gets, modify. cbn -[validateField recorded].
  destruct (validateField rt f (FormView.values fv f)) as [m|]; [|reflexivity].
  destruct (recorded (Some m)); reflexivity.
Qed.

(** What [errors] holds for a field once it has been validated. *)
Lemma validateEach_run (rt : DateRuntime) (names : list jsstring) :
  Forall (fun f => FormView.hasField f = true) names ->
  forall (b : bool) (fv : FormView.t),
  exists e',
    FormView.validateEach rt names b fv
    = Returns
        (b && forallb (fun f => negb (recorded (validateField rt f (FormView.values fv f))))
                names)
        (FormView.set_errors e' fv)
    /\ (forall f, f ∈ names ->
          e' !! f = if recorded (validateField rt f (FormView.values fv f))
                    then validateField rt f (FormView.values fv f) else None)
    /\ (forall f, f ∉ names -> e' !! f = FormView.errors fv !! f).
Proof.
  induction 1 as [|f names Hf _ IH]; intros b fv.
  - exists (FormView.errors fv). cbn. rewrite andb_true_r.
    split; [destruct fv; reflexivity|]. split; [|reflexivity].
    intros f Hf. inversion Hf.
  - cbn [FormView.validateEach]. unfold bind at 1.
    rewrite (FormView_validateField_run rt f fv Hf).
    set (e1 := if recorded (validateField rt f (FormView.values fv f))
               then <[f := default ""%string (validateField rt f (FormView.values fv f))]>
                      (FormView.errors fv)
               else delete f (FormView.errors fv)).
    unfold bind, gets. cbn [FormView.errors FormView.set_errors].
    assert (He1 : e1 !! f = if recorded (validateField rt f (FormView.values fv f))
                            then validateField rt f (FormView.values fv f) else None).
    { unfold e1. destruct (validateField rt f (FormView.values fv f)) as [m|] eqn:Hv; cbn.
      - destruct (negb (String.eqb m "")); [apply lookup_insert_eq|apply lookup_delete_eq].
      - apply lookup_delete_eq. }
    assert (Hflag : match e1 !! f with
                    | Some m => if negb (String.eqb m "") then false else b
                    | None => b
                    end
                    = b && negb (recorded (validateField rt f (FormView.values fv f)))).
    { rewrite He1.
      destruct (validateField rt f (FormView.values fv f)) as [m|]; cbn.
      - destruct (negb (String.eqb m "")) eqn:Hm; cbn; [now rewrite Hm, andb_false_r|].
        now rewrite andb_true_r.
      - now rewrite andb_true_r. }
    rewrite Hflag.
    destruct (IH (b && negb (recorded (validateField rt f (FormView.values fv f))))
                 (FormView.set_errors e1 fv)) as (e' & Hrun & Hin & Hout).
    exists e'. split; [|split].
    + rewrite Hrun. cbn [forallb FormView.values FormView.set_errors].
      now rewrite andb_assoc.
    + intros g Hg. destruct (decide (g ∈ names)) as [Hgn|Hgn].
      * apply (Hin g Hgn).
      * rewrite (Hout g Hgn). cbn [FormView.errors FormView.set_errors].
        apply elem_of_cons in Hg as [->|Hg]; [exact He1|contradiction].
    + intros g Hg. apply not_elem_of_cons in Hg as [Hgf Hgn].
      rewrite (Hout g Hgn). cbn [FormView.errors FormView.set_errors].
      unfold e1. destruct (recorded _);
        [now rewrite lookup_insert_ne|now rewrite lookup_delete_ne].
Qed.

(** What the form's [validateForm] returns and leaves in [errors]. *)
Lemma FormView_validateForm_run (rt : DateRuntime) (fv : FormView.t) :
  exists e',
    FormView.validateForm rt fv
    = Returns (validateForm rt (FormView.values fv)) (FormView.set_errors e' fv)
    /\ (forall f, f ∈ fieldNames ->
          e' !! f = validateField rt f (FormView.values fv f))
    /\ (forall f, f ∉ fieldNames -> e' !! f = FormView.errors fv !! f).
Proof.
  assert (Hall : Forall (fun f => FormView.hasField f = true) fieldNames).
  { apply Forall_forall. intros f Hf. unfold FormView.hasField.
    now apply bool_decide_eq_true_2. }
  destruct (validateEach_run rt fieldNames Hall true fv) as (e' & Hrun & Hin & Hout).
  exists e'. split; [exact Hrun|]. split; [|exact Hout].
  intros f Hf. rewrite (Hin f Hf).
  destruct (validateField rt f (FormView.values fv f)) as [m|] eqn:Hv; [|reflexivity].
  assert (Hm : recorded (Some m) = true); [|now rewrite Hm].
  revert Hv. unfold validateField, validateFieldTraced.
  unfold validationRules. cbn [rulesOf].
  repeat match goal with
         | |- context [streq ?k f] => destruct (streq k f)
         end;
    cbn [runRules required logic errorMessage];
    repeat match goal with
           | |- context [if negb ?b then _ else _] => destruct b; cbn [negb snd]
           end;
    intros [= <-]; reflexivity.
Qed.

(** X18.  The form's [validateForm], which goes through the [errors]
    object, returns what the nine rules say about the current values,
    whatever [errors] held before; it never throws.  Afterwards [errors]
    holds, for each of the nine fields, the message of its first failing
    rule, or no entry when the field passes; entries under other names
    are left alone, and no value or option changes. *)
Theorem validateForm_ignores_stale_errors (rt : DateRuntime) (fv : FormView.t) :
  exists e',
    FormView.validateForm rt fv
    = Returns (validateForm rt (FormView.values fv)) (FormView.set_errors e' fv)
    /\ (forall f, f ∈ fieldNames ->
          e' !! f = validateField rt f (FormView.values fv f))
    /\ (forall f, f ∉ fieldNames -> e' !! f = FormView.errors fv !! f).
Proof. exact (FormView_validateForm_run rt fv). Qed.

(** X17.  [handleSubmit] is gated by [validateForm], which rewrites the
    [errors] object on every submit: afterwards it holds, for each of the
    nine fields, the message of its first failing rule or no entry.  On a
    form that fails, that is all that happens: no event is emitted, the
    world and the fields of the form are as before.  On a form that
    passes, it hands exactly one record to [addData], or to [updateData]
    in edit mode, and puts an empty form on the page; that record is
    well formed: a name of 3 to 50 code units, a phone of ten digits, an
    email of the shape [l@m.t], a date of birth the runtime reads with a
    year 10 to 100 back, an age between 10 and 100, a country, state and
    city that are not blank, and a ZIP of five digits or five, a hyphen
    and four. *)
Theorem handleSubmit_emits_only_well_formed_records (fv : FormView.t) (w : World) :
  exists e',
    (forall f, f ∈ fieldNames ->
       e' !! f = validateField (dates w) f (FormView.values fv f))
    /\ (forall f, f ∉ fieldNames -> e' !! f = FormView.errors fv !! f)
    /\ (validateForm (dates w) (FormView.values fv) = false ->
        handleSubmitEvent (fv, w) = Returns tt (FormView.set_errors e' fv, w))
    /\ (validateForm (dates w) (FormView.values fv) = true ->
        let d := submitted w (FormView.values fv) in
        handleSubmitEvent (fv, w)
        = match ((if isEditMode (formComponent w) then updateData d else addData d);;
                 modify (set_formComponent (render None))) w with
          | Returns _ w' =>
              Returns tt (renderedEmpty (FormView.set_errors e' fv), w')
          | Throws => Throws
          end
        /\ (3 <= length (name d) <= 50)%nat
        /\ (length (phone d) = 10%nat /\ Forall (fun c => isDigit c = true) (phone d))
        /\ (exists l m t,
               email d = l ++ 64 :: m ++ 46 :: t
               /\ l <> [] /\ m <> [] /\ t <> []
               /\ Forall (fun c => notSpaceAt c = true) l
               /\ Forall (fun c => notSpaceAt c = true) m
               /\ Forall (fun c => notSpaceAt c = true) t)
        /\ (exists y, fullYearOf (dates w) (dob d) = Some y
                      /\ (10 <= currentYear (dates w) - y <= 100)%Z)
        /\ (exists n, age d = Num n /\ (10 <= n <= 100)%Z)
        /\ ~ Forall (fun c => isWhiteSpace c = true) (country d)
        /\ ~ Forall (fun c => isWhiteSpace c = true) (state d)
        /\ ~ Forall (fun c => isWhiteSpace c = true) (city d)
        /\ ((length (zip d) = 5%nat /\ Forall (fun c => isDigit c = true) (zip d))
            \/ exists a b, zip d = a ++ 45 :: b
                           /\ length a = 5%nat /\ length b = 4%nat
                           /\ Forall (fun c => isDigit c = true) a
                           /\ Forall (fun c => isDigit c = true) b)).
Proof.
  destruct (FormView_validateForm_run (dates w) fv) as (e' & Hrun & Hin & Hout).
  exists e'. split; [exact Hin|]. split; [exact Hout|].
  assert (Hstart : handleSubmitEvent (fv, w)
                   = if validateForm (dates w) (FormView.values fv)
                     then match handleSubmit (FormView.values fv) w with
                          | Returns _ w' =>
                              Returns tt (renderedEmpty (FormView.set_errors e' fv), w')
                          | Throws => Throws
                          end
                     else Returns tt (FormView.set_errors e' fv, w)).
  { unfold handleSubmitEvent, onForm, bind at 1 2, gets at 1. cbn [fst snd].
    rewrite Hrun.
    unfold handleSubmit, bind at 5, gets at 3.
    destruct (validateForm (dates w) (FormView.values fv)); [|reflexivity].
    unfold bind, gets, onWorld, modify. cbn [fst snd FormView.values FormView.set_errors].
    destruct (isEditMode (formComponent w));
      match goal with
      | |- context [emit ?l ?e ?a ?w0] => destruct (emit l e a w0) as [[] w'|]
      end; reflexivity. }
  split.
  - intros Hinvalid. rewrite Hstart, Hinvalid. reflexivity.
  - intros Hvalid d. split.
    + rewrite Hstart, Hvalid, handleSubmit_run, Hvalid. reflexivity.
    + exact (submitted_well_formed w (FormView.values fv) Hvalid).
Qed.

Lemma handleSubmit_emits_only_well_formed_records_witness :
  let w := pageOver (Some [person "1" "Ben"]) None in
  let blank := FormView.mk (fun _ => []) ([] :: map countryName getCountries)
                 [[]] [[]] ∅ in
  let filled := FormView.mk sampleForm ([] :: map countryName getCountries)
                  [[]; u "California"; u "New York"]
                  [[]; u "Los Angeles"; u "San Francisco"] ∅ in
  (exists e', handleSubmitEvent (blank, w) = Returns tt (FormView.set_errors e' blank, w)
              /\ e' !! u "name" = Some "Name is required"%string)
  /\ length (phone (submitted w (FormView.values filled))) = 10%nat.
Proof.
  intros w blank filled. split.
  - destruct (handleSubmit_emits_only_well_formed_records blank w)
      as (e' & Hin & _ & Hfail & _).
    exists e'. split.
    + apply Hfail. vm_compute. reflexivity.
    + rewrite Hin; [reflexivity|]. unfold fieldNames. cbn [map]. left.
  - destruct (handleSubmit_emits_only_well_formed_records filled w)
      as (e' & _ & _ & _ & Hpass).
    assert (Hvalid : validateForm (dates w) (FormView.values filled) = true)
      by (vm_compute; reflexivity).
    destruct (Hpass Hvalid) as (_ & _ & (Hl & _) & _). exact Hl.
Defined.

Lemma find_some_streq {A : Type} (key : A -> jsstring) (n : jsstring) (l : list A) (x : A) :
  find (fun y => streq (key y) n) l = Some x -> x ∈ l /\ key x = n.
Proof.
  induction l as [|y l IH]; cbn [find]; [discriminate|].
  unfold streq at 1. destruct (bool_decide_reflect (key y = n)) as [Hy|Hy].
  - intros [= <-]. split; [left|exact Hy].
  - intros H. destruct (IH H) as [Hin Hk]. split; [now right|exact Hk].
Qed.

Lemma required_rejects_empty (rt : DateRuntime) (form : jsstring -> jsstring) :
  form (u "state") = [] -> validateForm rt form = false.
Proof.
  intros Hs. destruct (validateForm rt form) eqn:Hv; [|reflexivity].
  apply validateForm_true in Hv as (_ & _ & _ & _ & _ & _ & Hstate & _).
  rewrite Hs in Hstate.
  rewrite (validateField_one rt (u "state") "State is required") in Hstate
    by (vm_compute; reflexivity).
  discriminate Hstate.
Qed.

(** X19.  Changing the country.  When the chosen value names one of the
    three countries, the state drop-down offers the placeholder and that
    country's states, the city drop-down the placeholder only, and both
    read as empty: the form cannot pass [validateForm] until a state is
    chosen again.  When it names none, the placeholder for one, the state
    and city drop-downs and all values are left as they were, stale
    options included.  Neither case throws. *)
Theorem country_change_resets_state_and_city (rt : DateRuntime) (fv : FormView.t) :
  (forall C, FormView.findCountry (FormView.values fv (u "country")) = Some C ->
     exists fv',
       FormView.handleCountryChange rt fv = Returns tt fv'
       /\ FormView.stateOptions fv' = [] :: map fst (states C)
       /\ FormView.cityOptions fv' = [[]]
       /\ FormView.values fv' (u "state") = []
       /\ FormView.values fv' (u "city") = []
       /\ FormView.values fv' (u "country") = FormView.values fv (u "country")
       /\ validateForm rt (FormView.values fv') = false)
  /\ (FormView.findCountry (FormView.values fv (u "country")) = None ->
      exists fv',
        FormView.handleCountryChange rt fv = Returns tt fv'
        /\ FormView.stateOptions fv' = FormView.stateOptions fv
        /\ FormView.cityOptions fv' = FormView.cityOptions fv
        /\ FormView.values fv' = FormView.values fv).
Proof.
  assert (Hc : FormView.hasField (u "country") = true) by reflexivity.
  split.
  - intros C HC. unfold FormView.handleCountryChange, FormView.updateStateDropdown,
      bind, gets, modify.
    rewrite HC. cbn -[FormView.validateField u map].
    rewrite (FormView_validateField_run rt (u "country") _ Hc).
    eexists. split; [reflexivity|].
    cbn -[validateField recorded u map].
    repeat split; try reflexivity.
    apply required_rejects_empty. reflexivity.
  - intros HC. unfold FormView.handleCountryChange, bind, gets, ret.
    rewrite HC.
    rewrite (FormView_validateField_run rt (u "country") _ Hc).
    eexists. split; [reflexivity|]. repeat split; reflexivity.
Qed.

Lemma country_change_resets_state_and_city_witness :
  let fv := FormView.mk sampleForm ([] :: map countryName getCountries)
              [[]; u "California"; u "New York"] [[]; u "Los Angeles"] ∅ in
  let fv1 := FormView.set_value (u "country") (u "Canada") fv in
  let fv2 := FormView.set_value (u "country") [] fv in
  (exists fv', FormView.handleCountryChange isoDates fv1 = Returns tt fv'
               /\ FormView.stateOptions fv' = [[]; u "Ontario"; u "Quebec"]
               /\ FormView.cityOptions fv' = [[]])
  /\ (exists fv', FormView.handleCountryChange isoDates fv2 = Returns tt fv'
                  /\ FormView.stateOptions fv' = [[]; u "California"; u "New York"]).
Proof.
  intros fv fv1 fv2.
  destruct (country_change_resets_state_and_city isoDates fv1) as [H1 _].
  destruct (country_change_resets_state_and_city isoDates fv2) as [_ H2].
  split.
  - destruct (H1 {| countryName := u "Canada";
                    states := [ (u "Ontario", [u "Toronto"; u "Ottawa"]);
                                (u "Quebec", [u "Montreal"; u "Quebec City"]) ] |})
      as (fv' & Hrun & Hs & Hci & _).
    + reflexivity.
    + exists fv'. split; [exact Hrun|]. split; [exact Hs|exact Hci].
  - destruct H2 as (fv' & Hrun & Hs & _).
    + reflexivity.
    + exists fv'. split; [exact Hrun|exact Hs].
Defined.

(** X20.  Changing the state.  When the country value names a country and
    the state value one of its states, the city drop-down offers the
    placeholder and that state's cities, and reads as empty; otherwise
    it is left as it was.  The state drop-down and the state value are
    not touched, and nothing throws. *)
Theorem state_change_offers_its_cities (rt : DateRuntime) (fv : FormView.t) :
  (forall C S,
      FormView.findCountry (FormView.values fv (u "country")) = Some C ->
      FormView.findState C (FormView.values fv (u "state")) = Some S ->
      exists fv',
        FormView.handleStateChange rt fv = Returns tt fv'
        /\ FormView.cityOptions fv' = [] :: snd S
        /\ FormView.values fv' (u "city") = []
        /\ FormView.stateOptions fv' = FormView.stateOptions fv
        /\ FormView.values fv' (u "state") = FormView.values fv (u "state")
        /\ S ∈ states C /\ C ∈ getCountries)
  /\ ((forall C, FormView.findCountry (FormView.values fv (u "country")) = Some C ->
                 FormView.findState C (FormView.values fv (u "state")) = None) ->
      exists fv',
        FormView.handleStateChange rt fv = Returns tt fv'
        /\ FormView.cityOptions fv' = FormView.cityOptions fv
        /\ FormView.stateOptions fv' = FormView.stateOptions fv
        /\ FormView.values fv' = FormView.values fv).
Proof.
  assert (Hs : FormView.hasField (u "state") = true) by reflexivity.
  split.
  - intros C S HC HS. unfold FormView.handleStateChange, FormView.updateCityDropdown,
      bind, gets, modify.
    rewrite HC, HS. cbn -[FormView.validateField u].
    rewrite (FormView_validateField_run rt (u "state") _ Hs).
    eexists. split; [reflexivity|].
    cbn -[validateField recorded u].
    repeat split; try reflexivity.
    + apply (find_some_streq fst _ _ _ HS).
    + apply (find_some_streq countryName _ _ _ HC).
  - intros Hnone. unfold FormView.handleStateChange, bind, gets, ret.
    destruct (FormView.findCountry (FormView.values fv (u "country"))) as [C|] eqn:HC.
    + rewrite (Hnone C eq_refl).
      rewrite (FormView_validateField_run rt (u "state") _ Hs).
      eexists. split; [reflexivity|]. repeat split; reflexivity.
    + rewrite (FormView_validateField_run rt (u "state") _ Hs).
      eexists. split; [reflexivity|]. repeat split; reflexivity.
Qed.

Lemma state_change_offers_its_cities_witness :
  let fv := FormView.mk sampleForm ([] :: map countryName getCountries)
              [[]; u "California"; u "New York"] [[]] ∅ in
  exists fv', FormView.handleStateChange isoDates fv = Returns tt fv'
              /\ FormView.cityOptions fv' = [[]; u "Los Angeles"; u "San Francisco"].
Proof.
  intros fv.
  destruct (state_change_offers_its_cities isoDates fv) as [H _].
  destruct (H {| countryName := u "USA";
                 states := [ (u "California", [u "Los Angeles"; u "San Francisco"]);
                             (u "New York", [u "New York City"; u "Buffalo"]) ] |}
              (u "California", [u "Los Angeles"; u "San Francisco"]))
    as (fv' & Hrun & Hci & _).
  - reflexivity.
  - reflexivity.
  - exists fv'. split; [exact Hrun|exact Hci].
Defined.

(** X21.  Opening a record for editing.  If the record's country is one
    of the three, its state one of that country's states and its city one
    of that state's cities, [populateDropdowns] leaves the three
    drop-downs showing the record's country, state and city, and offering
    the states of the country and the cities of the state.  If the state
    is not one of the country's, the state drop-down reads as empty and
    the city drop-down is left as it was. *)
Theorem populateDropdowns_shows_the_record
  (d : FormData) (fv : FormView.t) (C : Country) :
  FormView.countryOptions fv = [] :: map countryName getCountries ->
  FormView.findCountry (country d) = Some C ->
  (forall S, FormView.findState C (state d) = Some S -> city d ∈ snd S ->
     exists fv',
       FormView.populateDropdowns d fv = Returns tt fv'
       /\ FormView.values fv' (u "country") = country d
       /\ FormView.values fv' (u "state") = state d
       /\ FormView.values fv' (u "city") = city d
       /\ FormView.stateOptions fv' = [] :: map fst (states C)
       /\ FormView.cityOptions fv' = [] :: snd S)
  /\ (FormView.findState C (state d) = None ->
      exists fv',
        FormView.populateDropdowns d fv = Returns tt fv'
        /\ FormView.values fv' (u "country") = country d
        /\ FormView.values fv' (u "state") = []
        /\ FormView.cityOptions fv' = FormView.cityOptions fv).
Proof.
  intros Hco HC.
  destruct (find_some_streq countryName _ _ _ HC) as [HCin HCname].
  assert (Hcsel : FormView.selectValue (FormView.countryOptions fv) (country d)
                  = country d).
  { unfold FormView.selectValue. rewrite bool_decide_eq_true_2; [reflexivity|].
    rewrite Hco. right. rewrite <- HCname. now apply list_elem_of_fmap_2. }
  split.
  - intros S HS Hcity.
    destruct (find_some_streq fst _ _ _ HS) as [HSin HSname].
    unfold FormView.populateDropdowns, FormView.updateStateDropdown,
      FormView.updateCityDropdown, bind, gets, modify.
    rewrite HC, HS. cbn -[u map FormView.selectValue].
    eexists. split; [reflexivity|].
    cbn -[u map FormView.selectValue]. rewrite Hcsel.
    assert (Hssel : FormView.selectValue ([] :: map fst (states C)) (state d) = state d).
    { unfold FormView.selectValue. rewrite bool_decide_eq_true_2; [reflexivity|].
      right. rewrite <- HSname. now apply list_elem_of_fmap_2. }
    assert (Hcisel : FormView.selectValue ([] :: snd S) (city d) = city d).
    { unfold FormView.selectValue. rewrite bool_decide_eq_true_2; [reflexivity|].
      now right. }
    rewrite Hssel, Hcisel. repeat split; reflexivity.
  - intros HS.
    unfold FormView.populateDropdowns, FormView.updateStateDropdown,
      bind, gets, modify, ret.
    rewrite HC, HS. cbn -[u map FormView.selectValue].
    eexists. split; [reflexivity|].
    cbn -[u map FormView.selectValue]. rewrite Hcsel.
    assert (Hssel : FormView.selectValue ([] :: map fst (states C)) (state d) = []).
    { unfold FormView.selectValue.
      destruct (decide (state d ∈ [] :: map fst (states C))) as [Hin|Hnin];
        [rewrite bool_decide_eq_true_2 by exact Hin
        |rewrite bool_decide_eq_false_2 by exact Hnin; reflexivity].
      apply elem_of_cons in Hin as [Hin|Hin]; [exact Hin|]. exfalso.
      apply list_elem_of_fmap in Hin as (S & HSn & HSin).
      revert HS. unfold FormView.findState.
      induction (states C) as [|S0 l IH]; [inversion HSin|].
      cbn [find]. unfold streq at 1.
      destruct (bool_decide_reflect (fst S0 = state d)); [discriminate|].
      apply elem_of_cons in HSin as [->|HSin]; [congruence|]. now apply IH. }
    rewrite Hssel. repeat split; reflexivity.
Qed.

Lemma populateDropdowns_shows_the_record_witness :
  let fv := FormView.mk (fun _ => []) ([] :: map countryName getCountries) [[]] [[]] ∅ in
  exists fv',
    FormView.populateDropdowns (person "1" "Ana") fv = Returns tt fv'
    /\ FormView.values fv' (u "state") = u "California"
    /\ FormView.values fv' (u "city") = u "Los Angeles".
Proof.
  intros fv.
  destruct (populateDropdowns_shows_the_record (person "1" "Ana") fv
              {| countryName := u "USA";
                 states := [ (u "California", [u "Los Angeles"; u "San Francisco"]);
                             (u "New York", [u "New York City"; u "Buffalo"]) ] |})
    as [H _].
  - reflexivity.
  - reflexivity.
  - destruct (H (u "California", [u "Los Angeles"; u "San Francisco"]))
      as (fv' & Hrun & _ & Hs & Hc & _).
    + reflexivity.
    + left.
    + exists fv'. split; [exact Hrun|]. split; [exact Hs|exact Hc].
Defined.

(** ** More on the event bus *)

Section EventEmitterMore.
Context {W Arg : Type}.
Implicit Types (listeners : gmap jsstring (list (@Callback W Arg))).



(** X24.  [remove(e, cb)] takes every registration of [cb] for [e] away,
    not only the first, and keeps the other callbacks of [e] in their
    order; it never touches the callbacks of another name.  On a name
    nothing was ever registered for, it changes nothing, unless the name
    is one [Object.prototype] defines: then it throws. *)
Theorem remove_drops_every_registration
  (same : @Callback W Arg -> @Callback W Arg -> bool)
  listeners (e : jsstring) (cb : @Callback W Arg) :
  same cb cb = true ->
  (is_Some (listeners !! e) \/ inherited e = false ->
   exists l1 l2 l3,
     on e cb listeners = Some l1
     /\ on e cb l1 = Some l2
     /\ l2 !! e = Some (default [] (listeners !! e) ++ [cb; cb])
     /\ remove same e cb l2 = Some l3
     /\ l3 !! e = Some (filter (fun f => same f cb = false)
                          (default [] (listeners !! e)))
     /\ forall e', e ≠ e' -> l3 !! e' = listeners !! e')
  /\ (listeners !! e = None ->
      remove same e cb listeners = if inherited e then None else Some listeners)
  /\ (forall l', remove same e cb listeners = Some l' ->
      forall e', e ≠ e' -> l' !! e' = listeners !! e').
Proof.
  intros Hsame. split; [|split].
  - intros Hok.
    set (l1 := <[e := default [] (listeners !! e) ++ [cb]]> listeners).
    assert (H1 : l1 !! e = Some (default [] (listeners !! e) ++ [cb]))
      by apply lookup_insert_eq.
    set (l2 := <[e := (default [] (listeners !! e) ++ [cb]) ++ [cb]]> l1).
    assert (H2 : l2 !! e = Some ((default [] (listeners !! e) ++ [cb]) ++ [cb]))
      by apply lookup_insert_eq.
    exists l1, l2. eexists.
    split; [exact (on_returns listeners e cb Hok)|].
    split.
    { rewrite (on_returns l1 e cb) by (left; rewrite H1; eauto).
      rewrite H1. reflexivity. }
    split; [rewrite H2, <- app_assoc; reflexivity|].
    unfold remove. rewrite H2. split; [reflexivity|]. split.
    + rewrite lookup_insert_eq. f_equal.
      rewrite <- app_assoc, filter_app. cbn [app].
      rewrite !filter_cons, filter_nil.
      destruct (decide (same cb cb = false)); [congruence|].
      now rewrite app_nil_r.
    + intros e' Hne. unfold l2, l1. now rewrite !lookup_insert_ne.
  - intros Hnone. unfold remove. now rewrite Hnone.
  - intros l' Hl' e' Hne. unfold remove in Hl'.
    destruct (listeners !! e) as [l|].
    + injection Hl' as <-. now rewrite lookup_insert_ne.
    + destruct (inherited e); [discriminate Hl'|]. now injection Hl' as <-.
Qed.
End EventEmitterMore.



Lemma remove_drops_every_registration_witness :
  let tagOf (f : @Callback (list N) N) : outcome (list N) unit := f [] [] in
  let same (f g : @Callback (list N) N) : bool :=
    match tagOf f, tagOf g with
    | Returns _ x, Returns _ y => bool_decide (x = y)
    | Throws, Throws => true
    | _, _ => false
    end in
  let log (tag : N) : @Callback (list N) N := fun _ w => Returns tt (w ++ [tag]) in
  exists l1 l2 l3,
    on (u "a") (log 1) (<[u "a" := [log 1; log 2]]> ∅) = Some l1
    /\ on (u "a") (log 1) l1 = Some l2
    /\ remove same (u "a") (log 1) l2 = Some l3
    /\ emit l3 (u "a") [] [] = Returns tt [2].
Proof.
  intros tagOf same log.
  destruct (remove_drops_every_registration same (<[u "a" := [log 1; log 2]]> ∅)
              (u "a") (log 1)) as [H _].
  - reflexivity.
  - destruct H as (l1 & l2 & l3 & H1 & H2 & _ & H3 & Hl3 & _).
    + right. reflexivity.
    + exists l1, l2, l3. split; [exact H1|]. split; [exact H2|].
      split; [exact H3|]. unfold emit. rewrite Hl3. vm_compute. reflexivity.
Defined.

(** ** Loading, and adding then deleting *)

(** X25.  Constructing the store only reads the storage: both keys are
    left as they were, a missing key is not created.  The active set it
    starts from is the stored list, or the empty list when the key is
    missing; with the history key missing nothing is pending and
    [getDeletedData()] returns the empty list. *)
Theorem newAppStateManager_only_reads (w : World) :
  appStateData (newAppStateManager w) = appStateData w
  /\ appStateDeletedData (newAppStateManager w) = appStateDeletedData w
  /\ getData (newAppStateManager w)
     = Returns (default [] (appStateData w)) (newAppStateManager w)
  /\ (appStateDeletedData w = None ->
      deletedData (newAppStateManager w) = null
      /\ getDeletedData (newAppStateManager w) = Returns [] (newAppStateManager w)).
Proof.
  unfold newAppStateManager, loadData, getData, getDeletedData, bind, gets, ret.
  destruct w as [active deleted ? ? ? ? ? ? ?]. cbn.
  split; [|split; [|split]].
  - destruct active, deleted; reflexivity.
  - destruct active, deleted; reflexivity.
  - destruct active, deleted; reflexivity.
  - intros ->. destruct active; split; reflexivity.
Qed.

Lemma newAppStateManager_only_reads_witness :
  let w := mkWorld None None isoDates 0 [] [person "1" "Ana"]
             (value (JRecord (person "1" "Ana"))) undefined (render None) in
  getData (newAppStateManager w) = Returns [] (newAppStateManager w)
  /\ deletedData (newAppStateManager w) = null.
Proof.
  intros w.
  destruct (newAppStateManager_only_reads w) as (_ & _ & Hd & Hn).
  split; [exact Hd|]. apply Hn. reflexivity.
Defined.

(** X26.  Adding a record under an id no active record carries and then
    deleting that id gives back the active set as it was before, and
    puts the record, stamped with the time of the deletion, at the end of
    the stored history. *)
Theorem add_then_delete_restores_the_active_set
  (w : World) (d : FormData) (ms : N) (iso : jsstring) :
  Forall (fun item => id item ≠ id d) (data w) ->
  exists w1 w2,
    addData d w = Returns tt w1
    /\ handleDeleteData (id d) (tick ms iso w1) = Returns tt w2
    /\ data w2 = data w
    /\ appStateData w2 = Some (data w)
    /\ appStateDeletedData w2
       = Some (default [] (appStateDeletedData w1)
               ++ [JRecord (withTimeStamp iso d)]).
Proof.
  intros Habs. rewrite addData_run.
  pose proof (filter_absent (id d) (data w) Habs) as Hf.
  assert (Hfilter : filter (fun item => id item ≠ id d) (d :: data w) = data w).
  { rewrite filter_cons.
    destruct (decide (id d ≠ id d)); [contradiction|exact Hf]. }
  assert (Hfind : find (fun item => streq (id item) (id d)) (d :: data w) = Some d).
  { cbn [find]. unfold streq. now rewrite bool_decide_eq_true_2. }
  destruct (deletedData w) as [| |e] eqn:E; eexists; eexists;
    (split; [reflexivity|]);
    rewrite handleDeleteData_run; cbn -[filter find];
    rewrite Hfind, Hfilter;
    (split; [reflexivity|]); repeat split; reflexivity.
Qed.

Lemma add_then_delete_restores_the_active_set_witness :
  let w := pageOver (Some [person "1" "Ana"]) None in
  exists w1 w2,
    addData (person "2" "Ben") w = Returns tt w1
    /\ handleDeleteData (u "2") (tick 1700000009000 (u "2023-11-14T22:13:29.000Z") w1)
       = Returns tt w2
    /\ data w2 = [person "1" "Ana"].
Proof.
  intros w.
  destruct (add_then_delete_restores_the_active_set w (person "2" "Ben")
              1700000009000 (u "2023-11-14T22:13:29.000Z"))
    as (w1 & w2 & H1 & H2 & Hd & _).
  - repeat constructor. vm_compute. discriminate.
  - exists w1, w2. split; [exact H1|]. split; [exact H2|exact Hd].
Defined.
